(** * HabitCards API backend (backend/main.py): a shallow embedding

    The Flask application of [backend/main.py] is embedded as state-passing
    functions over the key-value store [replit_db] and a log of the calls
    made to the AI provider.  JSON values are an inductive type; Python
    objects are JSON values; the dynamic checks Python performs
    ([.get] on a non-dict, [.append] on a non-list, hashing a list)
    are written out and raise.

    The library functions [json.dumps], [json.loads] and [str] are taken
    through the interface [PyLib]; a reference implementation
    ([ref_pylib]) is given and proved to satisfy it. *)

From Stdlib Require Import ZArith NArith String Ascii List Lia Bool.
From Stdlib Require Import DecimalString DecimalPos DecimalZ.
From stdpp Require Import base option gmap strings list.

Local Open Scope string_scope.
Local Open Scope Z_scope.

(** ** JSON values, which double as the Python objects of the program *)

Unset Elimination Schemes.
Inductive json : Type :=
| JNull
| JBool (b : bool)
| JInt (n : Z)
| JStr (s : string)
| JArr (l : list json)
| JObj (kvs : list (string * json)).
Set Elimination Schemes.

(** A dict keeps its insertion order: an association list; [d[k] = v]
    overwrites in place when the key is there and adds at the end
    otherwise. *)
Abbreviation dict := (list (string * json)).

Fixpoint dict_get (d : dict) (k : string) : option json :=
  match d with
  | [] => None
  | (k', v) :: d' => if String.eqb k' k then Some v else dict_get d' k
  end.

Fixpoint dict_set (d : dict) (k : string) (v : json) : dict :=
  match d with
  | [] => [(k, v)]
  | (k', v') :: d' =>
      if String.eqb k' k then (k', v) :: d' else (k', v') :: dict_set d' k v
  end.

(** ** Exceptions and results *)

Record exn := Exn { exn_type : string; exn_msg : string }.

(** [str(e)] *)
Definition str_exn (e : exn) : string := exn_msg e.

Inductive result (A : Type) : Type :=
| Ok (a : A)
| Raise (e : exn).
Arguments Ok {A} a.
Arguments Raise {A} e.

Definition AttributeError (ty attr : string) : exn :=
  Exn "AttributeError" ("'" +:+ ty +:+ "' object has no attribute '" +:+ attr +:+ "'").
Definition TypeError (msg : string) : exn := Exn "TypeError" msg.

(** ** The Python operations the program applies to JSON values *)

Definition type_name (v : json) : string :=
  match v with
  | JNull => "NoneType"
  | JBool _ => "bool"
  | JInt _ => "int"
  | JStr _ => "str"
  | JArr _ => "list"
  | JObj _ => "dict"
  end.

(** Truth value of an object, as tested by [if], [not] and [or]. *)
Definition truthy (v : json) : bool :=
  match v with
  | JNull => false
  | JBool b => b
  | JInt n => negb (n =? 0)
  | JStr s => negb (String.eqb s EmptyString)
  | JArr l => match l with [] => false | _ => true end
  | JObj d => match d with [] => false | _ => true end
  end.

(** [v == s] for a [str] s: only an equal [str] is equal to it. *)
Definition py_eq_str (v : json) (s : string) : bool :=
  match v with
  | JStr t => String.eqb t s
  | _ => false
  end.

(** [v.get(key, dflt)]: a method of dicts only. *)
Definition py_get (v : json) (key : string) (dflt : json) : result json :=
  match v with
  | JObj d => Ok (default dflt (dict_get d key))
  | _ => Raise (AttributeError (type_name v) "get")
  end.

(** [key in v] *)
Definition py_contains (key : string) (v : json) : result bool :=
  match v with
  | JObj d => Ok (bool_decide (is_Some (dict_get d key)))
  | JArr l => Ok (existsb (fun x => py_eq_str x key) l)
  | JStr s => Ok (bool_decide (is_Some (String.index 0 key s)))
  | _ => Raise (TypeError ("argument of type '" +:+ type_name v +:+ "' is not iterable"))
  end.

(** [v[key] = x] with a [str] key *)
Definition py_setitem (v : json) (key : string) (x : json) : result json :=
  match v with
  | JObj d => Ok (JObj (dict_set d key x))
  | JArr _ => Raise (TypeError "list indices must be integers or slices, not str")
  | _ => Raise (TypeError ("'" +:+ type_name v +:+ "' object does not support item assignment"))
  end.

(** [v.append(x)]: a method of lists only. *)
Definition py_append (v x : json) : result json :=
  match v with
  | JArr l => Ok (JArr (l ++ [x]))
  | _ => Raise (AttributeError (type_name v) "append")
  end.

(** [for i in v]: the elements of a list, the keys of a dict, the
    characters of a string. *)
Definition py_iter (v : json) : result (list json) :=
  match v with
  | JArr l => Ok l
  | JObj d => Ok (map (fun kv => JStr (fst kv)) d)
  | JStr s => Ok (map (fun c => JStr (String c EmptyString)) (list_ascii_of_string s))
  | _ => Raise (TypeError ("'" +:+ type_name v +:+ "' object is not iterable"))
  end.

(** ** The library interface: [json.dumps], [json.loads], [str]

    What the program relies on: decoding the text of a value gives the
    value back, the text of the empty list is the two characters of the
    source's default, no text is empty, and [str] of a string is the
    string.  [json_loads] raises on a text it cannot decode. *)

Class PyLib := {
  json_dumps : json -> string;
  json_loads : string -> result json;
  py_str : json -> string;
  loads_dumps : forall v, json_loads (json_dumps v) = Ok v;
  dumps_nil : json_dumps (JArr []) = "[]";
  dumps_nonempty : forall v, json_dumps v <> EmptyString;
  py_str_str : forall s, py_str (JStr s) = s
}.

(** ** Program state and the monad of handlers *)

(** One call of a provider's completion API. *)
Record ai_request := AiRequest {
  ai_provider : string;
  ai_model : string;
  ai_content : string;            (* the single user message *)
  ai_max_tokens : option Z;
  ai_json_mode : bool;            (* response_format = json_object *)
  ai_temperature : option string  (* the decimal literal of the source *)
}.

Record world := World {
  replit_db : gmap string string;
  ai_log : list ai_request
}.

Definition M (A : Type) : Type := world -> result A * world.

#[export] Instance M_ret : MRet M := fun A a w => (Ok a, w).
#[export] Instance M_bind : MBind M := fun A B f m w =>
  match m w with
  | (Ok a, w') => f a w'
  | (Raise e, w') => (Raise e, w')
  end.

Definition lift {A} (r : result A) : M A := fun w => (r, w).
Definition raise {A} (e : exn) : M A := lift (Raise e).

(** [try: m  except Exception as e: h e].  Every exception of the model
    is an [Exception]. *)
Definition try_except {A} (m : M A) (h : exn -> M A) : M A := fun w =>
  match m w with
  | (Ok a, w') => (Ok a, w')
  | (Raise e, w') => h e w'
  end.

(** ** Strings of the source that contain double quotes

    The JSON shapes of the prompt templates are written with ['] where
    the source has a double quote; [dq] puts the double quotes back.
    (No template contains an apostrophe.) *)
Definition dquote : ascii := "034"%char.
Definition newline : string := String "010"%char EmptyString.

Fixpoint dq (s : string) : string :=
  match s with
  | EmptyString => EmptyString
  | String c s' => String (if Ascii.eqb c "'"%char then dquote else c) (dq s')
  end.

(** ** Library values: uuid4 and datetime *)

Definition digit_char (d : N) : ascii :=
  default "0"%char (list_ascii_of_string "0123456789abcdef" !! N.to_nat d).

(** The [k] low-order digits of [n] in base [base], most significant first
    (['%0kd'] and ['%0kx'] on a number that fits). *)
Fixpoint fixed_digits (base : N) (k : nat) (n : N) : string :=
  match k with
  | O => EmptyString
  | S k' => fixed_digits base k' (n / base)%N +:+ String (digit_char (n mod base)%N) EmptyString
  end.

(** [uuid.uuid4()] on the 128 random bits [r]: variant and version bits set. *)
Definition uuid4 (r : N) : N :=
  let i := (r mod 2 ^ 128)%N in
  let i := N.ldiff i (N.shiftl 0xc000 48) in
  let i := N.lor i (N.shiftl 0x8000 48) in
  let i := N.ldiff i (N.shiftl 0xf000 64) in
  N.lor i (N.shiftl 4 76).

(** [str(u)]: 32 hex digits as 8-4-4-4-12. *)
Definition str_uuid (u : N) : string :=
  let hex := fixed_digits 16 32 u in
  substring 0 8 hex +:+ "-" +:+ substring 8 4 hex +:+ "-" +:+ substring 12 4 hex
    +:+ "-" +:+ substring 16 4 hex +:+ "-" +:+ substring 20 12 hex.

Record datetime := DateTime {
  year : N; month : N; day : N;
  hour : N; minute : N; second : N; microsecond : N
}.

(** [d.isoformat()]: YYYY-MM-DDTHH:MM:SS, then .ffffff unless it is zero. *)
Definition isoformat (d : datetime) : string :=
  fixed_digits 10 4 (year d) +:+ "-" +:+ fixed_digits 10 2 (month d) +:+ "-"
    +:+ fixed_digits 10 2 (day d) +:+ "T" +:+ fixed_digits 10 2 (hour d) +:+ ":"
    +:+ fixed_digits 10 2 (minute d) +:+ ":" +:+ fixed_digits 10 2 (second d)
    +:+ (if (microsecond d =? 0)%N then EmptyString
         else "." +:+ fixed_digits 10 6 (microsecond d)).

(** ** Requests, responses and what the outside world answers *)

Record request := Request {
  req_method : string;
  req_path : list string;               (* the path, split at "/" *)
  req_headers : list (string * string);
  req_json : json                       (* request.json; None is JNull *)
}.

Record response := Response { status : Z; body : json }.

(** [jsonify(v)] *)
Definition jsonify (v : json) : response := Response 200 v.

(** A constructed provider client: the text of the first choice its
    completion call returns, or the exception raised on the way to it. *)
Definition client := ai_request -> result string.

(** What one request meets outside the program: the random bits of
    [uuid4], the clock, and the two provider constructors. *)
Record oracle := Oracle {
  rand128 : N;
  clock : datetime;
  OpenAI : result client;
  Anthropic : result client
}.

Definition lower_ascii (c : ascii) : ascii :=
  let n := nat_of_ascii c in
  if ((65 <=? n) && (n <=? 90))%nat then ascii_of_nat (n + 32) else c.

Fixpoint lower (s : string) : string :=
  match s with
  | EmptyString => EmptyString
  | String c s' => String (lower_ascii c) (lower s')
  end.

(** [headers.get(name, dflt)]: header names compare without case. *)
Fixpoint headers_get (hs : list (string * string)) (name dflt : string) : string :=
  match hs with
  | [] => dflt
  | (k, v) :: hs' =>
      if String.eqb (lower k) (lower name) then v else headers_get hs' name dflt
  end.

(** ** The prompt templates *)

Definition base : string :=
  "You are a voice command parser for a personal assistant app. Parse the user's voice input into structured JSON. Be creative and helpful. Fill in reasonable defaults for anything not mentioned.".

Definition schemas : list (string * string) :=
  [ ("alarm", dq "Return JSON: {'label':'alarm name','time':'HH:mm','icon':'SF Symbol','routine':[{'title':'step','duration':'e.g. 5 min','icon':'SF Symbol'}]}");
    ("meeting", dq "Return JSON: {'title':'name','date':'day','time':'h:mm a','icon':'SF Symbol','checklist':[{'title':'step','duration':'time','icon':'SF Symbol'}],'notes':'context'}");
    ("mood", dq "Return JSON: {'mood':'one word','level':0.0to1.0,'trigger':'cause','suggestion':'action'}");
    ("inbox", dq "Return JSON: {'source':'Email/Slack/etc','sourceIcon':'SF Symbol','priority':'High/Medium/Low','actionItems':[{'title':'task','duration':'time','icon':'SF Symbol'}]}");
    ("schedule", dq "Return JSON: {'blocks':[{'title':'activity','startTime':'h:mm a','endTime':'h:mm a','duration':'e.g. 1h','icon':'SF Symbol','colorName':'blue/green/purple/orange/teal/red'}]}") ].

Fixpoint assoc (l : list (string * string)) (k : string) : option string :=
  match l with
  | [] => None
  | (k', v) :: l' => if String.eqb k' k then Some v else assoc l' k
  end.

(** [schemas.get(mode, dflt)]: the key is hashed first, which a list or
    a dict refuses; a key that is not a [str] equals none of the keys. *)
Definition schemas_get (mode : json) (dflt : string) : result string :=
  match mode with
  | JStr m => Ok (default dflt (assoc schemas m))
  | JArr _ | JObj _ => Raise (TypeError ("unhashable type: '" +:+ type_name mode +:+ "'"))
  | _ => Ok dflt
  end.

(** ** The program *)

Section Program.
Context `{PyLib}.
(** [os.environ], and whether [from replit import db] succeeded. *)
Variable environ : gmap string string.
Variable USE_REPLIT_DB : bool.

Definition API_KEY : string :=
  default "habitcards-dev-key" (environ !! "HABITCARDS_API_KEY").

(** *** Storage *)

Definition db_get (key dflt : string) : M string := fun w =>
  (Ok (if USE_REPLIT_DB
       then match replit_db w !! key with
            | Some val => if String.eqb val EmptyString then dflt else val
            | None => dflt
            end
       else default dflt (replit_db w !! key)), w).

Definition db_set (key value : string) : M unit := fun w =>
  (Ok tt, World (<[key := value]> (replit_db w)) (ai_log w)).

Definition db_items (prefix : string) : M json :=
  blob ← db_get prefix "[]";
  lift (json_loads blob).

Definition db_add (prefix : string) (item : json) : M json :=
  items ← db_items prefix;
  items ← lift (py_append items item);
  _ ← db_set prefix (json_dumps items);
  mret item.

(** [[i for i in items if i.get("id") != item_id]] *)
Fixpoint without_id (items : list json) (item_id : string) : result (list json) :=
  match items with
  | [] => Ok []
  | i :: rest =>
      match py_get i "id" JNull with
      | Raise e => Raise e
      | Ok v =>
          match without_id rest item_id with
          | Raise e => Raise e
          | Ok kept => Ok (if negb (py_eq_str v item_id) then i :: kept else kept)
          end
      end
  end.

Definition db_delete (prefix item_id : string) : M unit :=
  items ← db_items prefix;
  elems ← lift (py_iter items);
  kept ← lift (without_id elems item_id);
  db_set prefix (json_dumps (JArr kept)).

(** *** Auth middleware *)

Definition check_auth (rq : request) : option response :=
  let key := headers_get (req_headers rq) "X-API-KEY" EmptyString in
  if negb (String.eqb key API_KEY)
  then Some (Response 401 (JObj [("error", JStr "Unauthorized")]))
  else None.

(** *** AI parsing *)

Definition get_ai_client (o : oracle) : option (string * client) :=
  match OpenAI o with
  | Ok c => Some ("openai", c)
  | Raise _ =>
      match Anthropic o with
      | Ok c => Some ("anthropic", c)
      | Raise _ => None
      end
  end.

Definition build_prompt (mode text : json) : result string :=
  match schemas_get mode (default EmptyString (assoc schemas "alarm")) with
  | Raise e => Raise e
  | Ok schema =>
      Ok (base +:+ newline +:+ newline +:+ schema +:+ newline +:+ newline
            +:+ "Voice input: " +:+ String dquote (py_str text) +:+ String dquote EmptyString)
  end.

(** A completion call: logged, then answered by the client. *)
Definition create (c : client) (rq : ai_request) : M string := fun w =>
  (c rq, World (replit_db w) (ai_log w ++ [rq])).

Definition parse_with_ai (text mode : json) (o : oracle) : M json :=
  let pc := get_ai_client o in
  prompt ← lift (build_prompt mode text);
  match pc with
  | Some (provider, c) =>
      if String.eqb provider "openai" then
        content ← create c (AiRequest "openai" "gpt-4o-mini" prompt None true (Some "0.1"));
        lift (json_loads content)
      else if String.eqb provider "anthropic" then
        text_content ← create c
          (AiRequest "anthropic" "claude-sonnet-4-20250514"
             (prompt +:+ newline +:+ newline +:+ "Return ONLY valid JSON, no other text.")
             (Some 1024) false None);
        lift (json_loads text_content)
      else raise (Exn "Exception" "No AI provider available")
  | None => raise (Exn "Exception" "No AI provider available")
  end.

(** *** Routes *)

Definition index : M response :=
  mret (jsonify (JObj
    [ ("name", JStr "HabitCards API");
      ("version", JStr "1.0");
      ("endpoints", JArr [JStr "/api/parse"; JStr "/api/alarms"; JStr "/api/meetings";
                          JStr "/api/moods"; JStr "/api/inbox"; JStr "/api/schedule"]);
      ("replit_db", JBool USE_REPLIT_DB) ])).

(** [request.json or {}] *)
Definition json_or_empty (rq : request) : json :=
  if truthy (req_json rq) then req_json rq else JObj [].

Definition parse_voice (rq : request) (o : oracle) : M response :=
  match check_auth rq with
  | Some auth_error => mret auth_error
  | None =>
      let data := json_or_empty rq in
      text ← lift (py_get data "text" (JStr EmptyString));
      mode ← lift (py_get data "mode" (JStr "alarm"));
      if negb (truthy text) then
        mret (Response 400 (JObj [("error", JStr "No text provided")]))
      else
        try_except
          (result ← parse_with_ai text mode o; mret (jsonify result))
          (fun e => mret (Response 500 (JObj [("error", JStr (str_exn e))])))
  end.

Definition list_items (prefix : string) (rq : request) : M response :=
  match check_auth rq with
  | Some auth_error => mret auth_error
  | None => items ← db_items prefix; mret (jsonify items)
  end.

Definition create_item (prefix : string) (rq : request) (o : oracle) : M response :=
  match check_auth rq with
  | Some auth_error => mret auth_error
  | None =>
      let data := json_or_empty rq in
      has_id ← lift (py_contains "id" data);
      data ← (if negb has_id
              then lift (py_setitem data "id" (JStr (str_uuid (uuid4 (rand128 o)))))
              else mret data);
      data ← lift (py_setitem data "createdAt" (JStr (isoformat (clock o))));
      item ← db_add prefix data;
      mret (Response 201 item)
  end.

(** [next((i for i in items if i.get("id") == item_id), None)]: the
    generator stops at the first match. *)
Fixpoint first_with_id (items : list json) (item_id : string) : result json :=
  match items with
  | [] => Ok JNull
  | i :: rest =>
      match py_get i "id" JNull with
      | Raise e => Raise e
      | Ok v => if py_eq_str v item_id then Ok i else first_with_id rest item_id
      end
  end.

Definition get_item (prefix item_id : string) (rq : request) : M response :=
  match check_auth rq with
  | Some auth_error => mret auth_error
  | None =>
      items ← db_items prefix;
      elems ← lift (py_iter items);
      item ← lift (first_with_id elems item_id);
      if negb (truthy item) then
        mret (Response 404 (JObj [("error", JStr "Not found")]))
      else mret (jsonify item)
  end.

Definition delete_item (prefix item_id : string) (rq : request) : M response :=
  match check_auth rq with
  | Some auth_error => mret auth_error
  | None =>
      _ ← db_delete prefix item_id;
      mret (jsonify (JObj [("deleted", JBool true)]))
  end.

(** *** The URL map *)

Inductive segment := Lit (s : string) | Var (name : string).

(** A view function: the captured path variables, the request, the
    oracle. *)
Definition view := list string -> request -> oracle -> M response.

Record rule := Rule {
  rule_path : list segment;
  rule_endpoint : string;
  rule_view : view;
  rule_methods : list string
}.

(** A view called with the wrong number of arguments. *)
Definition bad_call : M response := raise (TypeError "missing required positional argument").

Definition make_crud (prefix display_name : string) : list rule :=
  [ Rule [Lit "api"; Lit prefix] ("list_" +:+ prefix)
      (fun args rq _ => match args with [] => list_items prefix rq | _ => bad_call end)
      ["GET"];
    Rule [Lit "api"; Lit prefix] ("create_" +:+ prefix)
      (fun args rq o => match args with [] => create_item prefix rq o | _ => bad_call end)
      ["POST"];
    Rule [Lit "api"; Lit prefix; Var "item_id"] ("get_" +:+ prefix)
      (fun args rq _ => match args with [item_id] => get_item prefix item_id rq | _ => bad_call end)
      ["GET"];
    Rule [Lit "api"; Lit prefix; Var "item_id"] ("delete_" +:+ prefix)
      (fun args rq _ => match args with [item_id] => delete_item prefix item_id rq | _ => bad_call end)
      ["DELETE"] ].

Definition url_map : list rule :=
  [ Rule [] "index"
      (fun args _ _ => match args with [] => index | _ => bad_call end) ["GET"];
    Rule [Lit "api"; Lit "parse"] "parse_voice"
      (fun args rq o => match args with [] => parse_voice rq o | _ => bad_call end) ["POST"] ]
  ++ make_crud "alarms" "Alarm"
  ++ make_crud "meetings" "Meeting"
  ++ make_crud "moods" "Mood"
  ++ make_crud "inbox" "Inbox"
  ++ make_crud "schedule" "Schedule"
  ++ make_crud "profiles" "Profile".

(** A path against a rule: a literal segment must be equal, a variable
    takes any non-empty segment. *)
Fixpoint match_path (pat : list segment) (path : list string) : option (list string) :=
  match pat, path with
  | [], [] => Some []
  | Lit s :: pat', x :: path' =>
      if String.eqb s x then match_path pat' path' else None
  | Var _ :: pat', x :: path' =>
      if String.eqb x EmptyString then None
      else match match_path pat' path' with
           | Some args => Some (x :: args)
           | None => None
           end
  | _, _ => None
  end.

(** The methods a rule answers: the ones it was registered with, and
    HEAD when GET is one of them (the framework adds it to every such
    rule). *)
Definition rule_allows (r : rule) (meth : string) : bool :=
  existsb (String.eqb meth) (rule_methods r)
  || (String.eqb meth "HEAD" && existsb (String.eqb "GET") (rule_methods r)).

Fixpoint find_rule (rules : list rule) (rq : request) : option (rule * list string) :=
  match rules with
  | [] => None
  | r :: rules' =>
      match match_path (rule_path r) (req_path rq) with
      | Some args =>
          if rule_allows r (req_method rq)
          then Some (r, args) else find_rule rules' rq
      | None => find_rule rules' rq
      end
  end.

(** The application on one request; [None] when no view of the source
    is reached and the framework answers by itself (no such path, method
    not allowed, its own answer to OPTIONS, its static files). *)
Definition dispatch (rq : request) (o : oracle) : option (M response) :=
  match find_rule url_map rq with
  | Some (r, args) => Some (rule_view r args rq o)
  | None => None
  end.

End Program.

(** ** A reference implementation of the library interface

    [ref_dumps] prints the compact text [json.dumps] emits by default
    (items separated by a comma and a space, keys by a colon and a space),
    escaping the double quote and the backslash in strings.  [ref_loads]
    reads that text back.  Printers take the text that follows as an
    argument, so that the reader can be stated on a prefix. *)

Definition backslash : ascii := "092"%char.

Definition print_Z (n : Z) : string := NilZero.string_of_int (Z.to_int n).

Fixpoint esc (s k : string) : string :=
  match s with
  | EmptyString => k
  | String c s' =>
      if Ascii.eqb c dquote || Ascii.eqb c backslash
      then String backslash (String c (esc s' k))
      else String c (esc s' k)
  end.

Definition emit_str (s k : string) : string :=
  String dquote (esc s (String dquote k)).

(** What follows the first element of a list, the first member of a
    dict. *)
Section Tails.
Variable emit : json -> string -> string.
Variable k : string.

Fixpoint emit_elems (l : list json) : string :=
  match l with
  | [] => String "]" k
  | y :: l' => ", " +:+ emit y (emit_elems l')
  end.

Fixpoint emit_members (d : dict) : string :=
  match d with
  | [] => String "}" k
  | (key, y) :: d' => ", " +:+ emit_str key (": " +:+ emit y (emit_members d'))
  end.
End Tails.

Fixpoint emit (v : json) (k : string) : string :=
  match v with
  | JNull => "null" +:+ k
  | JBool b => (if b then "true" else "false") +:+ k
  | JInt n => print_Z n +:+ k
  | JStr s => emit_str s k
  | JArr l =>
      String "[" match l with
                 | [] => String "]" k
                 | x :: l' => emit x (emit_elems emit k l')
                 end
  | JObj d =>
      String "{" match d with
                 | [] => String "}" k
                 | (key, x) :: d' =>
                     emit_str key (": " +:+ emit x (emit_members emit k d'))
                 end
  end.

(** The number of nodes of a value: the fuel its text needs. *)
Fixpoint size (v : json) : nat :=
  match v with
  | JArr l => S (list_sum (map (fun x => S (size x)) l))
  | JObj d => S (list_sum (map (fun '(_, x) => S (size x)) d))
  | _ => 1%nat
  end.

Definition ref_dumps (v : json) : string := emit v EmptyString.

Definition is_num_char (c : ascii) : bool :=
  let n := nat_of_ascii c in
  (Ascii.eqb c "-"%char || ((48 <=? n) && (n <=? 57)))%nat.

(** The longest prefix of number characters, and the rest. *)
Fixpoint span_num (s : string) : string * string :=
  match s with
  | EmptyString => (EmptyString, EmptyString)
  | String c s' =>
      if is_num_char c
      then let (a, b) := span_num s' in (String c a, b)
      else (EmptyString, s)
  end.

(** After the opening quote: the string up to the closing quote. *)
Fixpoint read_str (s : string) : option (string * string) :=
  match s with
  | EmptyString => None
  | String c s' =>
      if Ascii.eqb c dquote then Some (EmptyString, s')
      else if Ascii.eqb c backslash then
        match s' with
        | String c' s'' =>
            if Ascii.eqb c' dquote || Ascii.eqb c' backslash
            then match read_str s'' with
                 | Some (t, r) => Some (String c' t, r)
                 | None => None
                 end
            else None
        | EmptyString => None
        end
      else match read_str s' with
           | Some (t, r) => Some (String c t, r)
           | None => None
           end
  end.

(** [strip p s]: the rest of [s] after its prefix [p]. *)
Fixpoint strip (p s : string) : option string :=
  match p, s with
  | EmptyString, _ => Some s
  | String a p', String b s' => if Ascii.eqb a b then strip p' s' else None
  | String _ _, EmptyString => None
  end.

(** A key, its quotes, and the separator after it. *)
Definition read_key (s : string) : option (string * string) :=
  match strip (String dquote EmptyString) s with
  | Some s' =>
      match read_str s' with
      | Some (key, r) =>
          match strip ": " r with
          | Some r' => Some (key, r')
          | None => None
          end
      | None => None
      end
  | None => None
  end.

Fixpoint parse_value (fuel : nat) (s : string) : option (json * string) :=
  match fuel with
  | O => None
  | S f =>
      match s with
      | EmptyString => None
      | String c r =>
          if is_num_char c then
            let (a, b) := span_num s in
            match NilZero.int_of_string a with
            | Some d => Some (JInt (Z.of_int d), b)
            | None => None
            end
          else if Ascii.eqb c dquote then
            match read_str r with
            | Some (t, r1) => Some (JStr t, r1)
            | None => None
            end
          else if Ascii.eqb c "["%char then
            match strip "]" r with
            | Some r' => Some (JArr [], r')
            | None =>
                match parse_value f r with
                | Some (x, r1) =>
                    match parse_elems f r1 with
                    | Some (xs, r2) => Some (JArr (x :: xs), r2)
                    | None => None
                    end
                | None => None
                end
            end
          else if Ascii.eqb c "{"%char then
            match strip "}" r with
            | Some r' => Some (JObj [], r')
            | None =>
                match read_key r with
                | Some (key, r0) =>
                    match parse_value f r0 with
                    | Some (x, r1) =>
                        match parse_members f r1 with
                        | Some (d, r2) => Some (JObj ((key, x) :: d), r2)
                        | None => None
                        end
                    | None => None
                    end
                | None => None
                end
            end
          else
            match strip "null" s with
            | Some r' => Some (JNull, r')
            | None =>
                match strip "true" s with
                | Some r' => Some (JBool true, r')
                | None =>
                    match strip "false" s with
                    | Some r' => Some (JBool false, r')
                    | None => None
                    end
                end
            end
      end
  end
with parse_elems (fuel : nat) (s : string) : option (list json * string) :=
  match fuel with
  | O => None
  | S f =>
      match strip "]" s with
      | Some r => Some ([], r)
      | None =>
          match strip ", " s with
          | Some r =>
              match parse_value f r with
              | Some (x, r1) =>
                  match parse_elems f r1 with
                  | Some (xs, r2) => Some (x :: xs, r2)
                  | None => None
                  end
              | None => None
              end
          | None => None
          end
      end
  end
with parse_members (fuel : nat) (s : string) : option (dict * string) :=
  match fuel with
  | O => None
  | S f =>
      match strip "}" s with
      | Some r => Some ([], r)
      | None =>
          match strip ", " s with
          | Some r =>
              match read_key r with
              | Some (key, r0) =>
                  match parse_value f r0 with
                  | Some (x, r1) =>
                      match parse_members f r1 with
                      | Some (d, r2) => Some ((key, x) :: d, r2)
                      | None => None
                      end
                  | None => None
                  end
              | None => None
              end
          | None => None
          end
      end
  end.

Definition ref_loads (s : string) : result json :=
  match parse_value (S (String.length s)) s with
  | Some (v, EmptyString) => Ok v
  | _ => Raise (Exn "JSONDecodeError" "Expecting value")
  end.

(** [repr] and [str] of a JSON value.  A string inside a container is
    written between single quotes, with the single quote and the backslash
    escaped. *)
Fixpoint esc_sq (s : string) : string :=
  match s with
  | EmptyString => EmptyString
  | String c s' =>
      if Ascii.eqb c "'"%char || Ascii.eqb c backslash
      then String backslash (String c (esc_sq s'))
      else String c (esc_sq s')
  end.

Definition repr_str (s : string) : string := "'" +:+ esc_sq s +:+ "'".

Fixpoint repr (v : json) : string :=
  match v with
  | JNull => "None"
  | JBool b => if b then "True" else "False"
  | JInt n => print_Z n
  | JStr s => repr_str s
  | JArr l => "[" +:+ String.concat ", " (map repr l) +:+ "]"
  | JObj d =>
      "{" +:+ String.concat ", " (map (fun '(key, x) => repr_str key +:+ ": " +:+ repr x) d) +:+ "}"
  end.

Definition ref_str (v : json) : string :=
  match v with
  | JStr s => s
  | _ => repr v
  end.

(** ** Induction on JSON values *)

Section JsonInd.
Variable P : json -> Prop.
Hypothesis Hnull : P JNull.
Hypothesis Hbool : forall b, P (JBool b).
Hypothesis Hint : forall n, P (JInt n).
Hypothesis Hstr : forall s, P (JStr s).
Hypothesis Harr : forall l, Forall P l -> P (JArr l).
Hypothesis Hobj : forall d, Forall (fun kv => P (snd kv)) d -> P (JObj d).

Fixpoint json_ind (v : json) : P v :=
  match v with
  | JNull => Hnull
  | JBool b => Hbool b
  | JInt n => Hint n
  | JStr s => Hstr s
  | JArr l =>
      Harr l ((fix go (l : list json) : Forall P l :=
                 match l with
                 | [] => @Stdlib.Lists.List.Forall_nil _ P
                 | x :: l' => @Stdlib.Lists.List.Forall_cons _ P x l' (json_ind x) (go l')
                 end) l)
  | JObj d =>
      Hobj d ((fix go (d : dict) : Forall (fun kv => P (snd kv)) d :=
                 match d with
                 | [] => @Stdlib.Lists.List.Forall_nil _ _
                 | kv :: d' => @Stdlib.Lists.List.Forall_cons _ _ kv d' (json_ind (snd kv)) (go d')
                 end) d)
  end.
End JsonInd.

(** ** Predicates used to state that the reference reader inverts the printer *)


Definition ok_rest (k : string) : bool :=
  match k with
  | EmptyString => true
  | String c _ => negb (is_num_char c)
  end.

Definition head_ok (s : string) : bool :=
  match s with
  | EmptyString => false
  | String c _ => negb (Ascii.eqb c "]"%char) && negb (Ascii.eqb c "}"%char)
  end.

Fixpoint all_num (s : string) : bool :=
  match s with
  | EmptyString => true
  | String c s' => is_num_char c && all_num s'
  end.

(** What the reader is shown to do on the text of one value. *)
Definition reads_back (v : json) : Prop :=
  forall k fuel, ok_rest k = true -> (size v < fuel)%nat ->
    parse_value fuel (emit v k) = Some (v, k).

(** The text of a value is at least as long as its size. *)
Definition fits (v : json) : Prop :=
  forall k, (size v + String.length k <= String.length (emit v k))%nat.

(** ** Vocabulary of the statements *)

(** The answer of [check_auth] to a wrong key. *)
Definition unauthorized : response :=
  Response 401 (JObj [("error", JStr "Unauthorized")]).

(** The acknowledgment of DELETE. *)
Definition deleted_ack : response := jsonify (JObj [("deleted", JBool true)]).

Definition not_found : response := Response 404 (JObj [("error", JStr "Not found")]).

(** The [id] field of the item [d] equals [item_id]; a missing field
    reads as [None], which equals no string. *)
Definition has_id (item_id : string) (d : dict) : bool :=
  py_eq_str (default JNull (dict_get d "id")) item_id.

(** The item has no [id] field at all. *)
Definition lacks_id (d : dict) : bool :=
  match dict_get d "id" with
  | None => true
  | Some _ => false
  end.

(** A value [dict.get] can hash: anything but a list or a dict. *)
Definition hashable (v : json) : bool :=
  match v with
  | JArr _ | JObj _ => false
  | _ => true
  end.

(** The modes with a template of their own. *)
Definition modes : list string := ["alarm"; "meeting"; "mood"; "inbox"; "schedule"].

(** The item POST builds from the body [d]. *)
Definition stamped (d : dict) (o : oracle) : dict :=
  dict_set
    (if bool_decide (is_Some (dict_get d "id")) then d
     else dict_set d "id" (JStr (str_uuid (uuid4 (rand128 o)))))
    "createdAt" (JStr (isoformat (clock o))).

(** The request [rq] sent with the method [meth]. *)
Definition with_method (meth : string) (rq : request) : request :=
  Request meth (req_path rq) (req_headers rq) (req_json rq).

(** The collections [make_crud] is called for. *)
Definition crud_prefixes : list string :=
  ["alarms"; "meetings"; "moods"; "inbox"; "schedule"; "profiles"].

(** No stored value is the empty string. *)
Definition no_empty_value (w : world) : Prop :=
  forall key, replit_db w !! key <> Some EmptyString.

(** The body of the index page. *)
Definition index_body (use_replit_db : bool) : json :=
  JObj [ ("name", JStr "HabitCards API");
         ("version", JStr "1.0");
         ("endpoints", JArr [JStr "/api/parse"; JStr "/api/alarms"; JStr "/api/meetings";
                             JStr "/api/moods"; JStr "/api/inbox"; JStr "/api/schedule"]);
         ("replit_db", JBool use_replit_db) ].

(** The request has no header named [name], in any case. *)
Definition lacks_header (name : string) (rq : request) : Prop :=
  Forall (fun kv => lower (fst kv) <> lower name) (req_headers rq).

(** The completion requests of the source, for a prompt. *)
Definition openai_request (prompt : string) : ai_request :=
  AiRequest "openai" "gpt-4o-mini" prompt None true (Some "0.1").

Definition anthropic_request (prompt : string) : ai_request :=
  AiRequest "anthropic" "claude-sonnet-4-20250514"
    (prompt +:+ newline +:+ newline +:+ "Return ONLY valid JSON, no other text.")
    (Some 1024) false None.

(** The 500 of the parse endpoint for the exception [e]. *)
Definition error_response (e : exn) : response :=
  Response 500 (JObj [("error", JStr (str_exn e))]).

(** What the parse endpoint makes of a provider's answer. *)
Definition parse_answer `{PyLib} (answer : result string) : response :=
  match answer with
  | Ok content =>
      match json_loads content with
      | Ok v => Response 200 v
      | Raise e => error_response e
      end
  | Raise e => error_response e
  end.

(** Two rules that differ in the backend only. *)
Definition same_rule (r1 r2 : rule) : Prop :=
  rule_path r1 = rule_path r2 /\
  rule_methods r1 = rule_methods r2 /\
  forall args rq o w, no_empty_value w ->
    snd (rule_view r1 args rq o w) = snd (rule_view r2 args rq o w) /\
    (rule_path r1 <> [] -> rule_view r1 args rq o w = rule_view r2 args rq o w).

Section Vocabulary.
Context `{PyLib}.
Variable environ : gmap string string.
Variable USE_REPLIT_DB : bool.

(** The request carries the configured key. *)
Definition authorized (rq : request) : Prop :=
  headers_get (req_headers rq) "X-API-KEY" EmptyString = API_KEY environ.

(** In the state [w], the collection [prefix] is the sequence [items]. *)
Definition collection (prefix : string) (w : world) (items : list json) : Prop :=
  db_items USE_REPLIT_DB prefix w = (Ok (JArr items), w).

(** Every collection is a sequence of items (JSON objects). *)
Definition well_formed (w : world) : Prop :=
  forall prefix, exists items : list dict, collection prefix w (map JObj items).

(** The state after serving the requests in turn, each with its oracle. *)
Fixpoint serve (reqs : list (request * oracle)) (w : world) : world :=
  match reqs with
  | [] => w
  | (rq, o) :: reqs' =>
      serve reqs'
        match dispatch environ USE_REPLIT_DB rq o with
        | Some m => snd (m w)
        | None => w
        end
  end.

End Vocabulary.

(** ** Sample inputs *)

Definition dev_key : list (string * string) := [("X-API-KEY", "habitcards-dev-key")].

Definition sample_items : list dict :=
  [ [("id", JStr "a1"); ("label", JStr "wake")];
    [("label", JStr "no id")];
    [("id", JStr "a2"); ("label", JStr "nap")];
    [("id", JStr "a1"); ("label", JStr "again")] ].

(** A store whose [alarms] blob is the text of [sample_items]. *)
Definition sample_world : world :=
  World {[ "alarms" := ref_dumps (JArr (map JObj sample_items)) ]} [].

Definition empty_world : world := World ∅ [].

Definition no_module (name : string) : exn :=
  Exn "ModuleNotFoundError" ("No module named '" +:+ name +:+ "'").

(** No provider library is installed. *)
Definition sample_oracle : oracle :=
  Oracle 0 (DateTime 2024 1 2 3 4 5 0)
    (Raise (no_module "openai")) (Raise (no_module "anthropic")).

(** A store whose [moods] text is no JSON. *)
Definition broken_world : world := World {[ "moods" := "not json" ]} [].

(** A provider client that answers every request with [content]. *)
Definition echo_client (content : string) : client := fun _ => Ok content.

Definition mood_reply : json := JObj [("mood", JStr "calm"); ("level", JInt 1)].

(** Both providers can be constructed. *)
Definition both_oracle : oracle :=
  Oracle 0 (DateTime 2024 1 2 3 4 5 0)
    (Ok (echo_client (ref_dumps mood_reply))) (Ok (echo_client "unused")).

(** Only the second provider can be constructed. *)
Definition second_oracle : oracle :=
  Oracle 0 (DateTime 2024 1 2 3 4 5 0)
    (Raise (no_module "openai")) (Ok (echo_client (ref_dumps mood_reply))).

Definition mood_body : dict := [("text", JStr "fine"); ("mode", JStr "mood")].

Definition rate_limited : exn := Exn "RateLimitError" "rate limit exceeded".

(** The first provider can be constructed and its call raises. *)
Definition failing_client : client := fun _ => Raise rate_limited.

Definition failing_oracle : oracle :=
  Oracle 0 (DateTime 2024 1 2 3 4 5 0)
    (Ok failing_client) (Ok (echo_client (ref_dumps mood_reply))).

Definition parse_request (body : json) : request :=
  Request "POST" ["api"; "parse"] dev_key body.

(** * Properties *)

(** ** The reference library satisfies the interface *)

Lemma strip_app p k : strip p (p +:+ k) = Some k.
Proof.
  induction p as [|c p IH]; simpl; [by destruct k|].
  by rewrite Ascii.eqb_refl.
Qed.

Lemma strip_one c s : strip (String c EmptyString) (String c s) = Some s.
Proof. simpl. by rewrite Ascii.eqb_refl. Qed.

Lemma strip_head c s :
  head_ok s = true -> (c = "]" \/ c = "}")%char -> strip (String c EmptyString) s = None.
Proof.
  destruct s as [|b s]; simpl; [done|].
  intros Hh Hc. apply andb_true_iff in Hh as [H1 H2].
  rewrite Ascii.eqb_sym.
  destruct Hc as [-> | ->]; [by destruct (Ascii.eqb b "]") | by destruct (Ascii.eqb b "}")].
Qed.

Lemma read_str_esc s k : read_str (esc s (String dquote k)) = Some (s, k).
Proof.
  induction s as [|c s IH]; simpl; [done|].
  destruct (Ascii.eqb c dquote) eqn:Hq; simpl.
  - by rewrite Hq, IH.
  - destruct (Ascii.eqb c backslash) eqn:Hb; simpl.
    + by rewrite Hb, orb_true_r, IH.
    + by rewrite Hq, Hb, IH.
Qed.

Lemma read_key_emit key k : read_key (emit_str key (": " +:+ k)) = Some (key, k).
Proof.
  unfold read_key, emit_str.
  rewrite strip_one; cbv beta iota.
  rewrite read_str_esc; cbv beta iota. by rewrite (strip_app ": " k).
Qed.

Lemma span_num_app a k :
  all_num a = true -> ok_rest k = true -> span_num (a +:+ k) = (a, k).
Proof.
  intros Ha Hk. induction a as [|c a IH]; simpl in *.
  - destruct k as [|c k]; simpl in *; [done|].
    by destruct (is_num_char c).
  - apply andb_true_iff in Ha as [Hc Ha]. by rewrite Hc, IH.
Qed.

Lemma all_num_uint u : all_num (NilEmpty.string_of_uint u) = true.
Proof. induction u; simpl; auto. Qed.

Lemma all_num_print_Z n : all_num (print_Z n) = true.
Proof.
  unfold print_Z, NilZero.string_of_int, NilZero.string_of_uint.
  destruct (Z.to_int n) as [u|u]; destruct u; simpl; try done; apply all_num_uint.
Qed.

Lemma print_Z_cons n : exists c a, print_Z n = String c a.
Proof.
  unfold print_Z, NilZero.string_of_int, NilZero.string_of_uint.
  destruct (Z.to_int n) as [u|u]; destruct u; simpl; eauto.
Qed.

Lemma int_of_print_Z n : NilZero.int_of_string (print_Z n) = Some (Z.to_int n).
Proof.
  unfold print_Z. apply NilZero.isi.
  - destruct n; simpl; try done. intros [= E]. by apply DecimalPos.Unsigned.to_uint_nonnil in E.
  - destruct n; simpl; try done. intros [= E]. by apply DecimalPos.Unsigned.to_uint_nonnil in E.
Qed.

Lemma num_char_head c : is_num_char c = true -> Ascii.eqb c dquote = false /\ head_ok (String c EmptyString) = true.
Proof.
  destruct c as [[] [] [] [] [] [] [] []]; vm_compute; intuition congruence.
Qed.

Lemma ok_rest_elems sh k l : ok_rest (emit_elems sh k l) = true.
Proof. by destruct l. Qed.

Lemma ok_rest_members sh k d : ok_rest (emit_members sh k d) = true.
Proof. by destruct d as [|[key y] d]. Qed.

Lemma head_ok_emit v k : head_ok (emit v k) = true.
Proof.
  destruct v as [|b|n|s|l|d]; simpl; try done.
  - by destruct b.
  - destruct (print_Z_cons n) as (c & a & E).
    pose proof (all_num_print_Z n) as Hn. rewrite E in Hn |- *. simpl in *.
    apply andb_true_iff in Hn as [Hc _]. by apply num_char_head in Hc as [_ Hc].
Qed.

Lemma parse_value_num f c r :
  is_num_char c = true ->
  parse_value (S f) (String c r) =
    let (a, b) := span_num (String c r) in
    match NilZero.int_of_string a with
    | Some d => Some (JInt (Z.of_int d), b)
    | None => None
    end.
Proof. intros Hc. cbn [parse_value]. by rewrite Hc. Qed.

Lemma parse_value_arr f r :
  parse_value (S f) (String "[" r) =
    match strip "]" r with
    | Some r' => Some (JArr [], r')
    | None =>
        match parse_value f r with
        | Some (x, r1) =>
            match parse_elems f r1 with
            | Some (xs, r2) => Some (JArr (x :: xs), r2)
            | None => None
            end
        | None => None
        end
    end.
Proof. reflexivity. Qed.

Lemma parse_value_obj f r :
  parse_value (S f) (String "{" r) =
    match strip "}" r with
    | Some r' => Some (JObj [], r')
    | None =>
        match read_key r with
        | Some (key, r0) =>
            match parse_value f r0 with
            | Some (x, r1) =>
                match parse_members f r1 with
                | Some (d, r2) => Some (JObj ((key, x) :: d), r2)
                | None => None
                end
            | None => None
            end
        | None => None
        end
    end.
Proof. reflexivity. Qed.

Lemma parse_elems_eq f s :
  parse_elems (S f) s =
    match strip "]" s with
    | Some r => Some ([], r)
    | None =>
        match strip ", " s with
        | Some r =>
            match parse_value f r with
            | Some (x, r1) =>
                match parse_elems f r1 with
                | Some (xs, r2) => Some (x :: xs, r2)
                | None => None
                end
            | None => None
            end
        | None => None
        end
    end.
Proof. reflexivity. Qed.

Lemma parse_members_eq f s :
  parse_members (S f) s =
    match strip "}" s with
    | Some r => Some ([], r)
    | None =>
        match strip ", " s with
        | Some r =>
            match read_key r with
            | Some (key, r0) =>
                match parse_value f r0 with
                | Some (x, r1) =>
                    match parse_members f r1 with
                    | Some (d, r2) => Some ((key, x) :: d, r2)
                    | None => None
                    end
                | None => None
                end
            | None => None
            end
        | None => None
        end
    end.
Proof. reflexivity. Qed.

Lemma parse_elems_emit l k :
  Forall reads_back l ->
  forall fuel, (list_sum (map (fun x => S (size x)) l) < fuel)%nat ->
    parse_elems fuel (emit_elems emit k l) = Some (l, k).
Proof.
  induction 1 as [|y l Hy _ IH]; intros [|f] Hf; simpl in Hf; try lia.
  - rewrite parse_elems_eq. simpl emit_elems. by rewrite strip_one.
  - rewrite parse_elems_eq. simpl emit_elems.
    change (strip "]" (", " +:+ ?s)) with (@None string).
    rewrite strip_app.
    rewrite Hy by (apply ok_rest_elems || lia).
    by rewrite IH by lia.
Qed.

Lemma parse_members_emit d k :
  Forall (fun kv => reads_back (snd kv)) d ->
  forall fuel, (list_sum (map (fun '(_, x) => S (size x)) d) < fuel)%nat ->
    parse_members fuel (emit_members emit k d) = Some (d, k).
Proof.
  induction 1 as [|[key y] d Hy _ IH]; intros [|f] Hf; simpl in Hf; try lia.
  - rewrite parse_members_eq. simpl emit_members. by rewrite strip_one.
  - rewrite parse_members_eq. simpl emit_members.
    change (strip "}" (", " +:+ ?s)) with (@None string).
    rewrite strip_app, read_key_emit. simpl in Hy.
    rewrite Hy by (apply ok_rest_members || lia).
    by rewrite IH by lia.
Qed.

Lemma parse_emit v : reads_back v.
Proof.
  induction v as [|b|n|s|l IH|d IH] using json_ind;
    intros k [|f] Hk Hf; simpl in Hf; try lia.
  - reflexivity.
  - by destruct b.
  - simpl emit. destruct (print_Z_cons n) as (c & a & E).
    pose proof (all_num_print_Z n) as Hn.
    pose proof (int_of_print_Z n) as Hi.
    rewrite E in Hn, Hi |- *.
    change (String c a +:+ k) with (String c (a +:+ k)).
    rewrite parse_value_num by (simpl in Hn; by apply andb_true_iff in Hn as [? _]).
    change (String c (a +:+ k)) with (String c a +:+ k).
    rewrite span_num_app by done. rewrite Hi. by rewrite DecimalZ.of_to.
  - simpl emit. unfold emit_str. cbn [parse_value].
    change (is_num_char dquote) with false. cbv iota.
    rewrite Ascii.eqb_refl. by rewrite read_str_esc.
  - simpl emit. rewrite parse_value_arr.
    destruct IH as [|x l Hx IH]; [by rewrite strip_one|].
    rewrite strip_head by (auto using head_ok_emit).
    simpl in Hf. rewrite Hx by (apply ok_rest_elems || lia).
    by rewrite parse_elems_emit by (done || lia).
  - simpl emit. rewrite parse_value_obj.
    destruct IH as [|[key x] d Hx IH]; [by rewrite strip_one|].
    rewrite strip_head by (first [reflexivity | by right]).
    rewrite read_key_emit.
    simpl in Hf, Hx. rewrite Hx by (apply ok_rest_members || lia).
    by rewrite parse_members_emit by (done || lia).
Qed.

Lemma length_app a b :
  String.length (a +:+ b) = (String.length a + String.length b)%nat.
Proof. induction a; simpl; auto. Qed.

Ltac len_lia := simpl in *; rewrite ?length_app in *; simpl in *; lia.

Lemma length_esc s k : (String.length k <= String.length (esc s k))%nat.
Proof.
  induction s as [|c s IH]; simpl; [lia|].
  destruct (_ || _); simpl; lia.
Qed.

Lemma size_emit_elems l k :
  Forall fits l ->
  (list_sum (map (fun x => S (size x)) l) + String.length k
     < String.length (emit_elems emit k l))%nat.
Proof.
  induction 1 as [|y l Hy _ IH]; simpl; [lia|].
  specialize (Hy (emit_elems emit k l)). len_lia.
Qed.

Lemma size_emit_members d k :
  Forall (fun kv => fits (snd kv)) d ->
  (list_sum (map (fun '(_, x) => S (size x)) d) + String.length k
     < String.length (emit_members emit k d))%nat.
Proof.
  induction 1 as [|[key y] d Hy _ IH]; simpl; [lia|].
  specialize (Hy (emit_members emit k d)). simpl in Hy.
  pose proof (length_esc key (String dquote (": " +:+ emit y (emit_members emit k d)))) as He.
  len_lia.
Qed.

Lemma size_emit v : fits v.
Proof.
  induction v as [|b|n|s|l IH|d IH] using json_ind; intros k; simpl.
  - len_lia.
  - destruct b; len_lia.
  - destruct (print_Z_cons n) as (c & a & ->). len_lia.
  - pose proof (length_esc s (String dquote k)). len_lia.
  - destruct IH as [|x l Hx IH]; simpl; [lia|].
    specialize (Hx (emit_elems emit k l)).
    pose proof (size_emit_elems l k IH). lia.
  - destruct IH as [|[key x] d Hx IH]; simpl; [lia|].
    specialize (Hx (emit_members emit k d)). simpl in Hx.
    pose proof (size_emit_members d k IH).
    pose proof (length_esc key (String dquote (": " +:+ emit x (emit_members emit k d)))) as He.
    len_lia.
Qed.

Lemma ref_loads_dumps v : ref_loads (ref_dumps v) = Ok v.
Proof.
  unfold ref_loads, ref_dumps.
  rewrite parse_emit; [done | done |].
  pose proof (size_emit v EmptyString). simpl in *. lia.
Qed.

Lemma ref_dumps_nonempty v : ref_dumps v <> EmptyString.
Proof.
  unfold ref_dumps. pose proof (size_emit v EmptyString) as Hs.
  destruct (emit v EmptyString); [|done].
  destruct v; simpl in Hs; lia.
Qed.

(** The reference implementation satisfies the interface. *)
Lemma ref_pylib : PyLib.
Proof.
  exact {| json_dumps := ref_dumps;
           json_loads := ref_loads;
           py_str := ref_str;
           loads_dumps := ref_loads_dumps;
           dumps_nil := eq_refl;
           dumps_nonempty := ref_dumps_nonempty;
           py_str_str := fun _ => eq_refl |}.
Defined.

(** ** The monad and the storage layer *)

Ltac unfold_M :=
  unfold mbind, mret, M_bind, M_ret, lift, raise, try_except in *.

Section Properties.
Context `{PyLib}.
Variable env : gmap string string.
Variable rdb : bool.


Lemma loads_empty_list : json_loads "[]" = Ok (JArr []).
Proof. rewrite <- dumps_nil. apply loads_dumps. Qed.

Lemma db_get_state key dflt w : snd (db_get rdb key dflt w) = w.
Proof. reflexivity. Qed.

Lemma db_get_absent key dflt w :
  replit_db w !! key = None -> db_get rdb key dflt w = (Ok dflt, w).
Proof. intros E. unfold db_get. rewrite E. by destruct rdb. Qed.

Lemma db_get_after_set key dflt v w :
  db_get rdb key dflt (snd (db_set key (json_dumps v) w))
  = (Ok (json_dumps v), snd (db_set key (json_dumps v) w)).
Proof.
  unfold db_get, db_set. simpl. rewrite lookup_insert_eq.
  destruct rdb; [|done].
  destruct (String.eqb_spec (json_dumps v) EmptyString) as [E|_]; [|done].
  by apply dumps_nonempty in E.
Qed.

Lemma db_items_after_set prefix v w :
  db_items rdb prefix (snd (db_set prefix (json_dumps v) w))
  = (Ok v, snd (db_set prefix (json_dumps v) w)).
Proof.
  unfold db_items. unfold_M. rewrite db_get_after_set.
  by rewrite loads_dumps.
Qed.

Lemma db_items_state prefix w : snd (db_items rdb prefix w) = w.
Proof. unfold db_items. unfold_M. by destruct (db_get _ _ _ _) as [[]]eqn:E; inversion E. Qed.

Lemma db_set_other key value key' w :
  key <> key' -> replit_db (snd (db_set key value w)) !! key' = replit_db w !! key'.
Proof. intros. simpl. by rewrite lookup_insert_ne. Qed.


(** ** The key check *)

Lemma check_auth_ok rq : authorized env rq -> check_auth env rq = None.
Proof.
  unfold authorized, check_auth. intros ->. by rewrite String.eqb_refl.
Qed.

Lemma check_auth_bad rq : ~ authorized env rq -> check_auth env rq = Some unauthorized.
Proof.
  unfold authorized, check_auth. intros Hne.
  by destruct (String.eqb_spec (headers_get (req_headers rq) "X-API-KEY" EmptyString) (API_KEY env)).
Qed.

(** ** The collection store *)

Lemma collection_after_set prefix items w :
  collection rdb prefix (snd (db_set prefix (json_dumps (JArr items)) w)) items.
Proof. apply db_items_after_set. Qed.

Lemma without_id_dicts (items : list dict) item_id :
  without_id (map JObj items) item_id
  = Ok (map JObj (List.filter (fun d => negb (has_id item_id d)) items)).
Proof.
  induction items as [|d items IH]; simpl; [done|].
  rewrite IH. unfold has_id. by destruct (negb _).
Qed.

Lemma first_with_id_dicts (items : list dict) item_id :
  first_with_id (map JObj items) item_id
  = Ok (match List.find (has_id item_id) items with
        | Some d => JObj d
        | None => JNull
        end).
Proof.
  induction items as [|d items IH]; simpl; [done|].
  unfold has_id at 1. by destruct (py_eq_str _ _).
Qed.

Lemma filter_no_match (items : list dict) item_id :
  Forall (fun d => has_id item_id d = false) items ->
  List.filter (fun d => negb (has_id item_id d)) items = items.
Proof.
  induction 1 as [|d items Hd _ IH]; simpl; [done|]. by rewrite Hd, IH.
Qed.

Lemma filter_twice (items : list dict) item_id :
  let keep := fun d => negb (has_id item_id d) in
  List.filter keep (List.filter keep items) = List.filter keep items.
Proof.
  induction items as [|d items IH]; simpl; [done|].
  destruct (negb (has_id item_id d)) eqn:E; simpl; [by rewrite E, IH|done].
Qed.

Lemma has_id_nonempty item_id d : has_id item_id d = true -> truthy (JObj d) = true.
Proof. by destruct d. Qed.

Lemma has_id_field item_id d :
  has_id item_id d = true <-> dict_get d "id" = Some (JStr item_id).
Proof.
  unfold has_id. destruct (dict_get d "id") as [[| | |s| |]|]; simpl; try (split; [done|by inversion 1]).
  destruct (String.eqb_spec s item_id) as [->|Hne]; split; try done.
  intros [= ->]. done.
Qed.

Lemma db_delete_dicts prefix item_id (items : list dict) w :
  collection rdb prefix w (map JObj items) ->
  let kept := List.filter (fun d => negb (has_id item_id d)) items in
  let w1 := snd (db_set prefix (json_dumps (JArr (map JObj kept))) w) in
  db_delete rdb prefix item_id w = (Ok tt, w1) /\ collection rdb prefix w1 (map JObj kept).
Proof.
  intros Hc kept w1. split; [|apply collection_after_set].
  unfold db_delete. unfold_M. rewrite Hc. simpl. by rewrite without_id_dicts.
Qed.

(** C8: listing a collection whose key was never written gives the empty
    array: [db_get] of the absent key is the text of the empty list,
    [db_items] decodes it to the empty sequence, and the list endpoint
    answers 200 with it. *)
Theorem C8_list_never_written prefix rq w :
  replit_db w !! prefix = None ->
  db_get rdb prefix "[]" w = (Ok "[]", w) /\
  db_items rdb prefix w = (Ok (JArr []), w) /\
  (authorized env rq ->
   list_items env rdb prefix rq w = (Ok (Response 200 (JArr [])), w)).
Proof.
  intros Habs.
  assert (Hi : db_items rdb prefix w = (Ok (JArr []), w)).
  { unfold db_items. unfold_M. rewrite db_get_absent by done. by rewrite loads_empty_list. }
  split; [by apply db_get_absent|]. split; [done|].
  intros Ha. unfold list_items. rewrite check_auth_ok by done.
  unfold_M. by rewrite Hi.
Qed.

(** C4: [db_add] returns the item it was given and stores the old
    sequence followed by that item; nothing else of the state changes. *)
Theorem C4_db_add_appends prefix item items w :
  collection rdb prefix w items ->
  exists w',
    db_add rdb prefix item w = (Ok item, w') /\
    collection rdb prefix w' (items ++ [item]) /\
    replit_db w' = <[prefix := json_dumps (JArr (items ++ [item]))]> (replit_db w) /\
    ai_log w' = ai_log w.
Proof.
  intros Hc. eexists. split; [|split; [apply collection_after_set|split; reflexivity]].
  unfold db_add. unfold_M. by rewrite Hc.
Qed.

(** C3: on a collection of items, [db_delete] stores exactly the items
    whose id differs from the given one, in order; without a match the
    collection is the same sequence as before; DELETE acknowledges with
    the same body in both cases, and a second DELETE leaves the state of
    the first. *)
Theorem C3_remove_by_id prefix item_id rq (items : list dict) w :
  collection rdb prefix w (map JObj items) ->
  authorized env rq ->
  let kept := List.filter (fun d => negb (has_id item_id d)) items in
  exists w1,
    db_delete rdb prefix item_id w = (Ok tt, w1) /\
    collection rdb prefix w1 (map JObj kept) /\
    (Forall (fun d => has_id item_id d = false) items -> kept = items) /\
    (forall other, other <> prefix -> replit_db w1 !! other = replit_db w !! other) /\
    delete_item env rdb prefix item_id rq w = (Ok deleted_ack, w1) /\
    delete_item env rdb prefix item_id rq w1 = (Ok deleted_ack, w1).
Proof.
  intros Hc Ha kept.
  destruct (db_delete_dicts prefix item_id items w Hc) as [Hd Hc1].
  fold kept in Hd, Hc1.
  set (w1 := snd (db_set prefix (json_dumps (JArr (map JObj kept))) w)) in *.
  exists w1. split; [done|]. split; [done|].
  split; [apply filter_no_match|].
  split; [intros other Hne; subst w1; simpl; by rewrite lookup_insert_ne|].
  split.
  - unfold delete_item. rewrite check_auth_ok by done. unfold_M. by rewrite Hd.
  - destruct (db_delete_dicts prefix item_id kept w1 Hc1) as [Hd2 _].
    unfold delete_item. rewrite check_auth_ok by done. unfold_M. rewrite Hd2.
    subst kept. rewrite filter_twice. f_equal.
    subst w1. unfold db_set. simpl. by rewrite insert_insert_eq.
Qed.

Lemma lacks_id_kept item_id d : lacks_id d = true -> negb (has_id item_id d) = true.
Proof. unfold lacks_id, has_id. by destruct (dict_get d "id"). Qed.

Lemma filter_lacks_id (items : list dict) item_id :
  List.filter lacks_id (List.filter (fun d => negb (has_id item_id d)) items)
  = List.filter lacks_id items.
Proof.
  induction items as [|d items IH]; simpl; [done|].
  destruct (lacks_id d) eqn:El.
  - rewrite (lacks_id_kept item_id d El). simpl. by rewrite El, IH.
  - destruct (negb (has_id item_id d)); simpl; by rewrite ?El, IH.
Qed.

Lemma get_item_dicts prefix item_id rq (items : list dict) w :
  collection rdb prefix w (map JObj items) ->
  authorized env rq ->
  get_item env rdb prefix item_id rq w
  = (Ok (match List.find (has_id item_id) items with
         | Some d => Response 200 (JObj d)
         | None => not_found
         end), w).
Proof.
  intros Hc Ha. unfold get_item. rewrite check_auth_ok by done.
  unfold_M. rewrite Hc. simpl. rewrite first_with_id_dicts.
  destruct (List.find (has_id item_id) items) as [d|] eqn:Ef; [|done].
  apply find_some in Ef as [_ Hd]. by rewrite (has_id_nonempty _ _ Hd).
Qed.

(** C10: an item without an [id] field is out of reach of the by-id
    operations.  [db_delete] keeps every such item (all of them, in
    order), whatever the id; GET by id answers 404 when no item has
    the id, and an item it returns has an [id] field equal to the path
    id. *)
Theorem C10_items_without_id prefix item_id rq (items : list dict) w :
  collection rdb prefix w (map JObj items) ->
  authorized env rq ->
  (exists w1 kept,
     db_delete rdb prefix item_id w = (Ok tt, w1) /\
     collection rdb prefix w1 (map JObj kept) /\
     List.filter lacks_id kept = List.filter lacks_id items /\
     (forall d, In d items -> dict_get d "id" = None -> In d kept)) /\
  (exists r,
     get_item env rdb prefix item_id rq w = (Ok r, w) /\
     (Forall (fun d => has_id item_id d = false) items -> r = not_found) /\
     (forall d, r = Response 200 (JObj d) ->
        In d items /\ dict_get d "id" = Some (JStr item_id)) /\
     (r = not_found \/ exists d, r = Response 200 (JObj d))).
Proof.
  intros Hc Ha. split.
  - destruct (db_delete_dicts prefix item_id items w Hc) as [Hd Hc1].
    eexists _, _. split; [exact Hd|]. split; [exact Hc1|].
    split; [apply filter_lacks_id|].
    intros d Hin Hno. apply filter_In. split; [done|].
    apply lacks_id_kept. unfold lacks_id. by rewrite Hno.
  - eexists. split; [by apply get_item_dicts|].
    destruct (List.find (has_id item_id) items) as [d|] eqn:Ef.
    + apply find_some in Ef as [Hin Hd].
      split; [|split; [|right; eauto]].
      * intros Hall. rewrite Forall_forall in Hall.
        apply list_elem_of_In in Hin. specialize (Hall d Hin). congruence.
      * intros d' [= <-]. split; [done|by apply has_id_field].
    + split; [done|]. split; [|by left]. by inversion 1.
Qed.

(** ** Item creation *)

Lemma dict_get_set_eq (d : dict) k v : dict_get (dict_set d k v) k = Some v.
Proof.
  induction d as [|[k' v'] d IH]; simpl.
  - by rewrite String.eqb_refl.
  - destruct (String.eqb k' k) eqn:E; simpl; by rewrite E.
Qed.

Lemma dict_get_set_ne (d : dict) k k' v :
  k <> k' -> dict_get (dict_set d k v) k' = dict_get d k'.
Proof.
  intros Hne. induction d as [|[k0 v0] d IH]; simpl.
  - by destruct (String.eqb_spec k k').
  - destruct (String.eqb_spec k0 k) as [->|]; simpl.
    + by destruct (String.eqb_spec k k').
    + by rewrite IH.
Qed.

Lemma stamped_id d o :
  dict_get (stamped d o) "id"
  = Some (default (JStr (str_uuid (uuid4 (rand128 o)))) (dict_get d "id")).
Proof.
  unfold stamped. rewrite dict_get_set_ne by done.
  destruct (dict_get d "id") as [v|] eqn:E; cbn [default is_Some]; [|apply dict_get_set_eq].
  by rewrite bool_decide_true by eauto.
Qed.

Lemma stamped_createdAt d o :
  dict_get (stamped d o) "createdAt" = Some (JStr (isoformat (clock o))).
Proof. apply dict_get_set_eq. Qed.

Lemma stamped_other d o k :
  k <> "id" -> k <> "createdAt" -> dict_get (stamped d o) k = dict_get d k.
Proof.
  intros Hid Hc. unfold stamped. rewrite dict_get_set_ne by done.
  destruct (bool_decide _); [done|]. by rewrite dict_get_set_ne.
Qed.

Lemma create_item_dict prefix rq o (d : dict) items w :
  authorized env rq ->
  json_or_empty rq = JObj d ->
  collection rdb prefix w items ->
  let item := JObj (stamped d o) in
  create_item env rdb prefix rq o w
  = (Ok (Response 201 item), snd (db_set prefix (json_dumps (JArr (items ++ [item]))) w)).
Proof.
  intros Ha Hd Hc item. unfold create_item. rewrite check_auth_ok by done.
  rewrite Hd. subst item. unfold stamped, db_add, py_contains. unfold_M.
  destruct (bool_decide (is_Some (dict_get d "id"))); cbv beta iota delta [negb py_setitem];
    by rewrite Hc.
Qed.

(** C9: POST changes at most [id] and [createdAt] of the submitted
    object: an [id] of the caller is kept, one is generated when the
    body has none, [createdAt] is the server's clock, every other key
    reads as in the body; the stored item is the one returned with 201. *)
Theorem C9_create_item_frame prefix rq o (d : dict) items w :
  authorized env rq ->
  json_or_empty rq = JObj d ->
  collection rdb prefix w items ->
  exists item w',
    create_item env rdb prefix rq o w = (Ok (Response 201 (JObj item)), w') /\
    collection rdb prefix w' (items ++ [JObj item]) /\
    dict_get item "id"
      = Some (default (JStr (str_uuid (uuid4 (rand128 o)))) (dict_get d "id")) /\
    dict_get item "createdAt" = Some (JStr (isoformat (clock o))) /\
    (forall k, k <> "id" -> k <> "createdAt" -> dict_get item k = dict_get d k).
Proof.
  intros Ha Hd Hc. exists (stamped d o). eexists.
  split; [by apply create_item_dict|]. split; [apply collection_after_set|].
  split; [apply stamped_id|]. split; [apply stamped_createdAt|].
  intros k. apply stamped_other.
Qed.

(** ** Generated ids *)

Lemma length_fixed_digits b k n : String.length (fixed_digits b k n) = k.
Proof.
  revert n. induction k as [|k IH]; intros n; simpl; [done|].
  rewrite length_app, IH. simpl. lia.
Qed.

Lemma length_substring s : forall n m,
  (n + m <= String.length s)%nat -> String.length (substring n m s) = m.
Proof.
  induction s as [|c s IH]; intros [|n] [|m] Hl; simpl in *; try lia; try done.
  - by rewrite IH by lia.
  - apply IH. lia.
  - apply IH. lia.
Qed.

Lemma length_str_uuid u : String.length (str_uuid u) = 36%nat.
Proof.
  unfold str_uuid. pose proof (length_fixed_digits 16 32 u) as Hl.
  rewrite !length_app, !length_substring by lia. reflexivity.
Qed.

Lemma str_uuid_nonempty u : str_uuid u <> EmptyString.
Proof. intros E. pose proof (length_str_uuid u) as Hl. by rewrite E in Hl. Qed.


Lemma length_isoformat d :
  String.length (isoformat d) = 19%nat \/ String.length (isoformat d) = 26%nat.
Proof.
  unfold isoformat. rewrite !length_app, !length_fixed_digits.
  destruct (microsecond d =? 0)%N; [left|right];
    rewrite ?length_app, ?length_fixed_digits; reflexivity.
Qed.

(** ** Routing *)

Lemma dispatch_create_alarms hs b o :
  let rq := Request "POST" ["api"; "alarms"] hs b in
  dispatch env rdb rq o = Some (create_item env rdb "alarms" rq o).
Proof. reflexivity. Qed.

Lemma dispatch_get_alarms item_id hs b o :
  item_id <> EmptyString ->
  let rq := Request "GET" ["api"; "alarms"; item_id] hs b in
  dispatch env rdb rq o = Some (get_item env rdb "alarms" item_id rq).
Proof. intros Hne. by destruct item_id. Qed.

Lemma find_rule_spec rules rq r args :
  find_rule rules rq = Some (r, args) ->
  In r rules /\ match_path (rule_path r) (req_path rq) = Some args.
Proof.
  induction rules as [|r0 rules IH]; cbn [find_rule]; [done|].
  destruct (match_path (rule_path r0) (req_path rq)) as [args0|] eqn:Em.
  - destruct (rule_allows _ _).
    + intros [= <- <-]. split; [by left|done].
    + intros Hf. destruct (IH Hf). split; [by right|done].
  - intros Hf. destruct (IH Hf). split; [by right|done].
Qed.

Lemma match_path_2 a b path args :
  match_path [Lit a; Lit b] path = Some args -> args = [].
Proof.
  destruct path as [|x [|y [|z path]]]; cbn [match_path]; try done;
    destruct (String.eqb a x); try done; destruct (String.eqb b y); try done.
  by intros [= <-].
Qed.

Lemma match_path_3 a b n path args :
  match_path [Lit a; Lit b; Var n] path = Some args -> exists item_id, args = [item_id].
Proof.
  destruct path as [|x [|y [|z [|z' path]]]]; cbn [match_path]; try done;
    destruct (String.eqb a x); try done; destruct (String.eqb b y); try done;
    destruct (String.eqb z EmptyString); try done.
  intros [= <-]. eauto.
Qed.

(** ** Every handler but the index checks the key first *)

Lemma list_items_unauthorized prefix rq w :
  ~ authorized env rq -> list_items env rdb prefix rq w = (Ok unauthorized, w).
Proof. intros Hn. unfold list_items. by rewrite check_auth_bad. Qed.

Lemma create_item_unauthorized prefix rq o w :
  ~ authorized env rq -> create_item env rdb prefix rq o w = (Ok unauthorized, w).
Proof. intros Hn. unfold create_item. by rewrite check_auth_bad. Qed.

Lemma get_item_unauthorized prefix item_id rq w :
  ~ authorized env rq -> get_item env rdb prefix item_id rq w = (Ok unauthorized, w).
Proof. intros Hn. unfold get_item. by rewrite check_auth_bad. Qed.

Lemma delete_item_unauthorized prefix item_id rq w :
  ~ authorized env rq -> delete_item env rdb prefix item_id rq w = (Ok unauthorized, w).
Proof. intros Hn. unfold delete_item. by rewrite check_auth_bad. Qed.

Lemma parse_voice_unauthorized rq o w :
  ~ authorized env rq -> parse_voice env rq o w = (Ok unauthorized, w).
Proof. intros Hn. unfold parse_voice. by rewrite check_auth_bad. Qed.

Lemma make_crud_gated prefix display_name r args rq o w :
  In r (make_crud env rdb prefix display_name) ->
  match_path (rule_path r) (req_path rq) = Some args ->
  ~ authorized env rq ->
  rule_view r args rq o w = (Ok unauthorized, w).
Proof.
  intros Hin Hm Hn. unfold make_crud in Hin.
  destruct Hin as [<-|[<-|[<-|[<-|[]]]]]; cbn [rule_path rule_view] in *.
  - apply match_path_2 in Hm as ->. by apply list_items_unauthorized.
  - apply match_path_2 in Hm as ->. by apply create_item_unauthorized.
  - apply match_path_3 in Hm as [item_id ->]. by apply get_item_unauthorized.
  - apply match_path_3 in Hm as [item_id ->]. by apply delete_item_unauthorized.
Qed.

(** C1: a request whose key is not the configured one, routed to any
    rule of the URL map other than the index, is answered 401 with the
    fixed body, and the state (every stored collection, and the log of
    provider calls) is the one before. *)
Theorem C1_unauthorized_no_effect rq o r args w :
  ~ authorized env rq ->
  find_rule (url_map env rdb) rq = Some (r, args) ->
  rule_endpoint r <> "index" ->
  rule_view r args rq o w = (Ok (Response 401 (JObj [("error", JStr "Unauthorized")])), w).
Proof.
  intros Hn Hf Hidx. apply find_rule_spec in Hf as [Hin Hm].
  unfold url_map in Hin. rewrite !in_app_iff in Hin.
  destruct Hin as [[<-|[<-|[]]]|Hin].
  - done.
  - cbn [rule_path rule_view] in *. apply match_path_2 in Hm as ->.
    by apply parse_voice_unauthorized.
  - repeat (destruct Hin as [Hin|Hin]; [by eapply make_crud_gated|]).
    by eapply make_crud_gated.
Qed.

Lemma find_after_fresh item_id (items rest : list dict) :
  Forall (fun d => has_id item_id d = false) items ->
  List.find (has_id item_id) (items ++ rest) = List.find (has_id item_id) rest.
Proof. induction 1 as [|d items Hd _ IH]; simpl; [done|]. by rewrite Hd. Qed.

(** C2: POST /api/alarms with the body {"label": "x"} and then GET
    /api/alarms/<returned id>, both with the key, on a collection of
    items none of which has the generated id: POST answers 201 with an
    item whose [id] is the generated, non-empty string, and GET answers
    200 with that item, whose [label] is "x" and whose [createdAt] is
    the ISO text (19 or 26 characters) of the clock at POST. *)
Theorem C2_post_then_get hs1 hs2 body2 o o2 (items : list dict) w :
  let post := Request "POST" ["api"; "alarms"] hs1 (JObj [("label", JStr "x")]) in
  let new_id := str_uuid (uuid4 (rand128 o)) in
  let get := Request "GET" ["api"; "alarms"; new_id] hs2 body2 in
  authorized env post ->
  authorized env get ->
  collection rdb "alarms" w (map JObj items) ->
  Forall (fun d => has_id new_id d = false) items ->
  exists item w' m1 m2,
    dispatch env rdb post o = Some m1 /\
    m1 w = (Ok (Response 201 (JObj item)), w') /\
    dict_get item "id" = Some (JStr new_id) /\
    new_id <> EmptyString /\
    dispatch env rdb get o2 = Some m2 /\
    m2 w' = (Ok (Response 200 (JObj item)), w') /\
    dict_get item "label" = Some (JStr "x") /\
    dict_get item "createdAt" = Some (JStr (isoformat (clock o))) /\
    (String.length (isoformat (clock o)) = 19%nat \/
     String.length (isoformat (clock o)) = 26%nat).
Proof.
  intros post new_id get Hp Hg Hc Hfresh.
  set (item := stamped [("label", JStr "x")] o).
  assert (Hi : dict_get item "id" = Some (JStr new_id)) by apply stamped_id.
  assert (Hid : has_id new_id item = true) by by apply has_id_field.
  eexists item, _, _, _.
  split; [apply dispatch_create_alarms|].
  split; [by apply (create_item_dict "alarms" post o [("label", JStr "x")])|].
  split; [done|]. split; [apply str_uuid_nonempty|].
  split; [apply dispatch_get_alarms, str_uuid_nonempty|].
  split; [|split; [by unfold item; rewrite stamped_other|
                   split; [apply stamped_createdAt|apply length_isoformat]]].
  erewrite (get_item_dicts "alarms" new_id get (items ++ [item]));
    [|by rewrite map_app; apply collection_after_set|done].
  rewrite find_after_fresh by done. cbn [List.find]. by rewrite Hid.
Qed.

(** ** The prompt builder *)

Lemma assoc_none l m : ~ In m (map fst l) -> assoc l m = None.
Proof.
  induction l as [|[k v] l IH]; cbn [assoc map fst In]; [done|].
  intros Hn. destruct (String.eqb_spec k m) as [->|_]; [|apply IH]; tauto.
Qed.

Lemma schemas_keys : map fst schemas = modes.
Proof. reflexivity. Qed.

(** C5: a mode string outside the five modes gets the prompt of the
    alarm mode, whatever the text. *)
Theorem C5_unknown_mode_alarm (mode : string) (text : json) :
  ~ In mode modes ->
  build_prompt (JStr mode) text = build_prompt (JStr "alarm") text.
Proof.
  intros Hn. unfold build_prompt, schemas_get.
  rewrite (assoc_none schemas mode) by (by rewrite schemas_keys).
  reflexivity.
Qed.

(** ** The parse endpoint *)

Lemma parse_with_ai_effects text mode o w r w' :
  parse_with_ai text mode o w = (r, w') ->
  replit_db w' = replit_db w /\
  exists calls, ai_log w' = (ai_log w ++ calls)%list /\ (length calls <= 1)%nat.
Proof.
  unfold parse_with_ai, create. unfold_M.
  assert (Hnil : forall x : world, replit_db x = replit_db x /\
            exists calls, ai_log x = (ai_log x ++ calls)%list /\ (length calls <= 1)%nat).
  { intros x. split; [done|]. exists []. split; [by rewrite app_nil_r|simpl; lia]. }
  destruct (build_prompt mode text) as [prompt|e]; [|intros [= _ <-]; apply Hnil].
  destruct (get_ai_client o) as [[provider c]|]; [|intros [= _ <-]; apply Hnil].
  destruct (String.eqb provider "openai").
  - destruct (c _) as [content|e]; intros [= _ <-]; (split; [done|]); eexists [_]; (split; [done|simpl; lia]).
  - destruct (String.eqb provider "anthropic"); [|intros [= _ <-]; apply Hnil].
    destruct (c _) as [content|e]; intros [= _ <-]; (split; [done|]); eexists [_]; (split; [done|simpl; lia]).
Qed.

Lemma parse_voice_with_text rq o w d :
  authorized env rq ->
  json_or_empty rq = JObj d ->
  let text := default (JStr EmptyString) (dict_get d "text") in
  let mode := default (JStr "alarm") (dict_get d "mode") in
  truthy text = true ->
  parse_voice env rq o w =
    match parse_with_ai text mode o w with
    | (Ok result, w') => (Ok (Response 200 result), w')
    | (Raise e, w') => (Ok (Response 500 (JObj [("error", JStr (str_exn e))])), w')
    end.
Proof.
  intros Ha Hd text mode Ht. unfold parse_voice. rewrite check_auth_ok by done.
  rewrite Hd. unfold_M. cbn [py_get]. fold text mode. rewrite Ht. cbn [negb].
  by destruct (parse_with_ai text mode o w) as [[result|e] w'].
Qed.

Lemma parse_voice_provider rq o w d provider c prompt :
  authorized env rq ->
  json_or_empty rq = JObj d ->
  let text := default (JStr EmptyString) (dict_get d "text") in
  let mode := default (JStr "alarm") (dict_get d "mode") in
  truthy text = true ->
  build_prompt mode text = Ok prompt ->
  get_ai_client o = Some (provider, c) ->
  let call := if String.eqb provider "openai" then openai_request prompt
              else anthropic_request prompt in
  (provider = "openai" \/ provider = "anthropic") ->
  parse_voice env rq o w
  = (Ok (parse_answer (c call)), World (replit_db w) (ai_log w ++ [call])).
Proof.
  intros Ha Hd text mode Ht Hp Hc call Hprov.
  rewrite (parse_voice_with_text rq o w d Ha Hd Ht). fold text mode.
  unfold parse_with_ai, create. rewrite Hp, Hc. unfold_M.
  unfold parse_answer, error_response, call, openai_request, anthropic_request.
  destruct Hprov as [-> | ->]; cbn [String.eqb Ascii.eqb Bool.eqb];
    by destruct (c _) as [content|e]; [destruct (json_loads content)|].
Qed.

Lemma get_ai_client_provider o provider c :
  get_ai_client o = Some (provider, c) -> provider = "openai" \/ provider = "anthropic".
Proof.
  unfold get_ai_client.
  destruct (OpenAI o); [left; congruence|].
  destruct (Anthropic o); [right; congruence|done].
Qed.

(** C6 (as amended): for a request with the key and a text.  When
    neither provider can be constructed and the mode can be looked up in
    the template table (it is no list and no dict), [parse_with_ai]
    raises "No AI provider available"; with a list or a dict as mode the
    lookup raises its [TypeError] first.  When the call of the chosen
    provider raises, or its reply cannot be decoded, that exception is
    the one answered.  In each case, and for whatever exception
    [parse_with_ai] raises, the endpoint answers 500 with the message of
    the exception as the error; the chosen provider was called once and
    no other tried; nothing is stored. *)
Theorem C6_parse_failures rq o w d :
  authorized env rq ->
  json_or_empty rq = JObj d ->
  let text := default (JStr EmptyString) (dict_get d "text") in
  let mode := default (JStr "alarm") (dict_get d "mode") in
  truthy text = true ->
  (hashable mode = true ->
   (exists e1 e2, OpenAI o = Raise e1 /\ Anthropic o = Raise e2) ->
   parse_with_ai text mode o w = (Raise (Exn "Exception" "No AI provider available"), w) /\
   parse_voice env rq o w
   = (Ok (Response 500 (JObj [("error", JStr "No AI provider available")])), w)) /\
  (hashable mode = false ->
   parse_voice env rq o w
   = (Ok (Response 500
            (JObj [("error", JStr ("unhashable type: '" +:+ type_name mode +:+ "'"))])), w)) /\
  (forall provider c prompt e,
     get_ai_client o = Some (provider, c) ->
     build_prompt mode text = Ok prompt ->
     let call := if String.eqb provider "openai" then openai_request prompt
                 else anthropic_request prompt in
     (c call = Raise e \/
      exists content, c call = Ok content /\ json_loads content = Raise e) ->
     parse_voice env rq o w
     = (Ok (Response 500 (JObj [("error", JStr (str_exn e))])),
        World (replit_db w) (ai_log w ++ [call]))) /\
  (forall e w',
     parse_with_ai text mode o w = (Raise e, w') ->
     parse_voice env rq o w
     = (Ok (Response 500 (JObj [("error", JStr (str_exn e))])), w')) /\
  (exists r calls w',
     parse_voice env rq o w = (Ok r, w') /\
     replit_db w' = replit_db w /\
     ai_log w' = (ai_log w ++ calls)%list /\
     (length calls <= 1)%nat).
Proof.
  intros Ha Hd text mode Ht.
  pose proof (parse_voice_with_text rq o w d Ha Hd Ht) as Hv. fold text mode in Hv.
  assert (Hcatch : forall e w',
            parse_with_ai text mode o w = (Raise e, w') ->
            parse_voice env rq o w
            = (Ok (Response 500 (JObj [("error", JStr (str_exn e))])), w')).
  { intros e w' He. by rewrite Hv, He. }
  split; [|split; [|split; [|split; [exact Hcatch|]]]].
  - intros Hh (e1 & e2 & H1 & H2).
    assert (Hr : parse_with_ai text mode o w
                 = (Raise (Exn "Exception" "No AI provider available"), w)).
    { unfold parse_with_ai, get_ai_client, build_prompt, schemas_get. rewrite H1, H2.
      unfold_M. by destruct mode. }
    split; [exact Hr|]. by rewrite (Hcatch _ _ Hr).
  - intros Hh. rewrite Hv.
    unfold parse_with_ai, build_prompt, schemas_get. unfold_M. by destruct mode.
  - intros provider c prompt e Hc Hp call Hfail.
    pose proof (get_ai_client_provider o provider c Hc) as Hprov.
    rewrite (parse_voice_provider rq o w d provider c prompt Ha Hd Ht Hp Hc Hprov).
    fold call. unfold parse_answer, error_response.
    by destruct Hfail as [-> | (content & -> & ->)].
  - destruct (parse_with_ai text mode o w) as [r w'] eqn:Ep.
    destruct (parse_with_ai_effects _ _ _ _ _ _ Ep) as (Hdb & calls & Hlog & Hlen).
    destruct r as [result|e]; eexists _, calls, w'; by rewrite Hv.
Qed.

(** C7 (as amended): the parse endpoint on a body that is a JSON object
    (or a false value, read as the empty object) without a [text]
    field, or whose [text] is empty (or any other false value): with
    the key the answer is 400 "No text provided"; without the key it is
    the 401 of [check_auth], which runs first.  The state is unchanged
    in both cases. *)
Theorem C7_no_text rq o w d :
  json_or_empty rq = JObj d ->
  (dict_get d "text" = None \/
   exists t, dict_get d "text" = Some t /\ truthy t = false) ->
  (authorized env rq ->
   parse_voice env rq o w
   = (Ok (Response 400 (JObj [("error", JStr "No text provided")])), w)) /\
  (~ authorized env rq ->
   parse_voice env rq o w
   = (Ok (Response 401 (JObj [("error", JStr "Unauthorized")])), w)).
Proof.
  intros Hd Ht. split; [|apply parse_voice_unauthorized].
  intros Ha. unfold parse_voice. rewrite check_auth_ok by done.
  rewrite Hd. unfold_M. cbn [py_get].
  by destruct Ht as [-> | (t & -> & Hf)]; cbn [default from_option id]; [|rewrite Hf].
Qed.

(** ** Reachable states hold collections of items *)

Lemma db_items_lookup prefix w1 w2 :
  replit_db w1 !! prefix = replit_db w2 !! prefix ->
  fst (db_items rdb prefix w1) = fst (db_items rdb prefix w2).
Proof.
  intros E. unfold db_items, db_get. unfold_M. cbn [fst]. rewrite E.
  by destruct (json_loads _).
Qed.

Lemma collection_lookup prefix w1 w2 items :
  replit_db w1 !! prefix = replit_db w2 !! prefix ->
  collection rdb prefix w1 items -> collection rdb prefix w2 items.
Proof.
  unfold collection. intros E Hc.
  pose proof (db_items_lookup prefix w1 w2 E) as Hf.
  pose proof (db_items_state prefix w2) as Hs.
  rewrite Hc in Hf. cbn [fst] in Hf.
  destruct (db_items rdb prefix w2) as [r w']. cbn [fst snd] in *. by subst.
Qed.

Lemma well_formed_same_db w w' :
  replit_db w' = replit_db w -> well_formed rdb w -> well_formed rdb w'.
Proof.
  intros E Hw prefix. destruct (Hw prefix) as [items Hc].
  exists items. eapply collection_lookup; [|exact Hc]. by rewrite E.
Qed.

Lemma well_formed_empty log : well_formed rdb (World ∅ log).
Proof.
  intros prefix. exists [].
  unfold collection, db_items. unfold_M.
  rewrite db_get_absent by apply lookup_empty. by rewrite loads_empty_list.
Qed.

Lemma well_formed_set prefix (items : list dict) w :
  well_formed rdb w ->
  well_formed rdb (snd (db_set prefix (json_dumps (JArr (map JObj items))) w)).
Proof.
  intros Hw p. destruct (decide (p = prefix)) as [->|Hne].
  - exists items. apply collection_after_set.
  - destruct (Hw p) as [its Hc]. exists its.
    eapply collection_lookup; [|exact Hc]. cbn. by rewrite lookup_insert_ne.
Qed.

Lemma parse_voice_db rq o w :
  replit_db (snd (parse_voice env rq o w)) = replit_db w.
Proof.
  unfold parse_voice. destruct (check_auth env rq); [done|]. unfold_M.
  destruct (py_get _ "text" _) as [text|]; [|done].
  destruct (py_get _ "mode" _) as [mode|]; [|done].
  destruct (negb (truthy text)); [done|].
  destruct (parse_with_ai text mode o w) as [r w'] eqn:Ep.
  apply parse_with_ai_effects in Ep as [Hdb _]. by destruct r.
Qed.

Lemma list_items_state prefix rq w : snd (list_items env rdb prefix rq w) = w.
Proof.
  unfold list_items. destruct (check_auth env rq); [done|]. unfold_M.
  pose proof (db_items_state prefix w) as Hs.
  destruct (db_items rdb prefix w) as [[items|e] w']; by cbn in *.
Qed.

Lemma get_item_state prefix item_id rq w : snd (get_item env rdb prefix item_id rq w) = w.
Proof.
  unfold get_item. destruct (check_auth env rq); [done|]. unfold_M.
  pose proof (db_items_state prefix w) as Hs.
  destruct (db_items rdb prefix w) as [[items|e] w']; cbn in *; subst; [|done].
  destruct (py_iter items); [|done].
  destruct (first_with_id _ _) as [item|]; [|done]. by destruct (negb (truthy item)).
Qed.

Lemma create_item_well_formed prefix rq o w :
  well_formed rdb w -> well_formed rdb (snd (create_item env rdb prefix rq o w)).
Proof.
  intros Hw. destruct (Hw prefix) as [items Hc].
  destruct (check_auth env rq) as [r|] eqn:Ea.
  { unfold create_item. by rewrite Ea. }
  assert (Ha : authorized env rq).
  { unfold check_auth in Ea. unfold authorized.
    by destruct (String.eqb_spec (headers_get (req_headers rq) "X-API-KEY" EmptyString) (API_KEY env)). }
  destruct (json_or_empty rq) as [|b|n|s|l|d] eqn:Ed.
  6: { rewrite (create_item_dict prefix rq o d _ w Ha Ed Hc). cbn [snd].
       replace (map JObj items ++ [JObj (stamped d o)])%list
         with (map JObj (items ++ [stamped d o])) by (by rewrite map_app).
       by apply well_formed_set. }
  all: unfold create_item; rewrite Ea, Ed; unfold_M; cbn [py_contains]; try done.
  - by destruct (negb _).
  - by destruct (negb _).
Qed.

Lemma delete_item_well_formed prefix item_id rq w :
  well_formed rdb w -> well_formed rdb (snd (delete_item env rdb prefix item_id rq w)).
Proof.
  intros Hw. destruct (Hw prefix) as [items Hc].
  unfold delete_item. destruct (check_auth env rq) as [r|]; [done|].
  destruct (db_delete_dicts prefix item_id items w Hc) as [Hd _].
  unfold_M. rewrite Hd. cbn [snd]. by apply well_formed_set.
Qed.

(** Every view of the URL map keeps the store well formed, whatever the
    request, the oracle and the outcome. *)
Lemma views_keep_well_formed rq o r args w :
  In r (url_map env rdb) ->
  well_formed rdb w -> well_formed rdb (snd (rule_view r args rq o w)).
Proof.
  intros Hin Hw.
  assert (Hbad : well_formed rdb (snd (bad_call w))) by done.
  unfold url_map in Hin. rewrite !in_app_iff in Hin.
  assert (Hcrud : forall prefix display_name,
            In r (make_crud env rdb prefix display_name) ->
            well_formed rdb (snd (rule_view r args rq o w))).
  { intros prefix dn Hr. unfold make_crud in Hr.
    destruct Hr as [<-|[<-|[<-|[<-|[]]]]]; cbn [rule_view].
    - destruct args; [|done]. by rewrite list_items_state.
    - destruct args; [|done]. by apply create_item_well_formed.
    - destruct args as [|item_id [|]]; try done. by rewrite get_item_state.
    - destruct args as [|item_id [|]]; try done. by apply delete_item_well_formed. }
  destruct Hin as [[<-|[<-|[]]]|Hin]; cbn [rule_view].
  - by destruct args.
  - destruct args; [|done]. eapply well_formed_same_db; [apply parse_voice_db|done].
  - repeat (destruct Hin as [Hin|Hin]; [by eapply Hcrud|]). by eapply Hcrud.
Qed.

(** X1: from the empty store, any sequence of requests leaves every
    collection a sequence of items (JSON objects): the by-id operations
    never meet an element they cannot read. *)
Theorem reachable_well_formed reqs : well_formed rdb (serve env rdb reqs (World ∅ [])).
Proof.
  assert (Hgen : forall w, well_formed rdb w -> well_formed rdb (serve env rdb reqs w)).
  { induction reqs as [|[rq o] reqs IH]; intros w Hw; cbn [serve]; [done|].
    apply IH. unfold dispatch.
    destruct (find_rule (url_map env rdb) rq) as [[r args]|] eqn:Ef; [|done].
    apply find_rule_spec in Ef as [Hin _]. by apply views_keep_well_formed. }
  apply Hgen, well_formed_empty.
Qed.

(** ** What a request can do to the state *)


(** [db_add] and [db_delete] either leave the state or write the text of
    a value under their own key. *)
Lemma db_add_step prefix item w :
  snd (db_add rdb prefix item w) = w \/
  exists v, snd (db_add rdb prefix item w) = snd (db_set prefix (json_dumps v) w).
Proof.
  unfold db_add. unfold_M.
  pose proof (db_items_state prefix w) as Hs.
  destruct (db_items rdb prefix w) as [[items|e] w0]; cbn [snd] in *; subst w0; [|by left].
  destruct (py_append items item) as [items'|e]; [|by left]. right. by eexists.
Qed.

Lemma db_delete_step prefix item_id w :
  snd (db_delete rdb prefix item_id w) = w \/
  exists v, snd (db_delete rdb prefix item_id w) = snd (db_set prefix (json_dumps v) w).
Proof.
  unfold db_delete. unfold_M.
  pose proof (db_items_state prefix w) as Hs.
  destruct (db_items rdb prefix w) as [[items|e] w0]; cbn [snd] in *; subst w0; [|by left].
  destruct (py_iter items) as [elems|e]; [|by left].
  destruct (without_id elems item_id) as [kept|e]; [|by left]. right. by eexists.
Qed.

Lemma create_item_step prefix rq o w :
  snd (create_item env rdb prefix rq o w) = w \/
  exists v, snd (create_item env rdb prefix rq o w) = snd (db_set prefix (json_dumps v) w).
Proof.
  unfold create_item. destruct (check_auth env rq); [by left|]. unfold_M.
  destruct (py_contains "id" (json_or_empty rq)) as [has|e]; [|by left].
  assert (Hadd : forall data,
    snd (match db_add rdb prefix data w with
         | (Ok a, w') => (Ok (Response 201 a), w')
         | (Raise e, w') => (Raise e, w')
         end) = snd (db_add rdb prefix data w)).
  { intros data. by destruct (db_add rdb prefix data w) as [[a|e] w']. }
  destruct (negb has).
  - destruct (py_setitem (json_or_empty rq) "id" _) as [data|e]; [|by left].
    destruct (py_setitem data "createdAt" _) as [data'|e]; [|by left].
    rewrite Hadd. apply db_add_step.
  - destruct (py_setitem (json_or_empty rq) "createdAt" _) as [data'|e]; [|by left].
    rewrite Hadd. apply db_add_step.
Qed.

Lemma delete_item_step prefix item_id rq w :
  snd (delete_item env rdb prefix item_id rq w) = w \/
  exists v, snd (delete_item env rdb prefix item_id rq w)
            = snd (db_set prefix (json_dumps v) w).
Proof.
  unfold delete_item. destruct (check_auth env rq); [by left|]. unfold_M.
  destruct (db_delete_step prefix item_id w) as [E|[v E]];
    destruct (db_delete rdb prefix item_id w) as [[[]|e] w']; cbn [snd] in *; subst;
    (by left) || (right; by eexists).
Qed.

(** X3: POST and DELETE on one collection leave every other collection
    as it was, whatever the request and its outcome. *)
Theorem other_collection_untouched p q item_id rq o w items :
  p <> q ->
  collection rdb q w items ->
  collection rdb q (snd (create_item env rdb p rq o w)) items /\
  collection rdb q (snd (delete_item env rdb p item_id rq w)) items.
Proof.
  intros Hne Hc. split.
  - destruct (create_item_step p rq o w) as [->|[v ->]]; [done|].
    eapply collection_lookup; [|exact Hc]. symmetry. by apply db_set_other.
  - destruct (delete_item_step p item_id rq w) as [->|[v ->]]; [done|].
    eapply collection_lookup; [|exact Hc]. symmetry. by apply db_set_other.
Qed.

(** ** How the CRUD operations compose *)

Lemma list_items_collection prefix rq items w :
  authorized env rq ->
  collection rdb prefix w items ->
  list_items env rdb prefix rq w = (Ok (Response 200 (JArr items)), w).
Proof.
  intros Ha Hc. unfold list_items. rewrite check_auth_ok by done.
  unfold_M. by rewrite Hc.
Qed.

Lemma find_filter_none (items : list dict) item_id :
  List.find (has_id item_id) (List.filter (fun d => negb (has_id item_id d)) items) = None.
Proof.
  induction items as [|d items IH]; cbn [List.filter List.find]; [done|].
  destruct (has_id item_id d) eqn:E; cbn [negb List.find]; [done|]. by rewrite E.
Qed.

Lemma filter_app_new (items : list dict) item item_id :
  Forall (fun d => has_id item_id d = false) items ->
  has_id item_id item = true ->
  List.filter (fun d => negb (has_id item_id d)) (items ++ [item]) = items.
Proof.
  intros Hf Hi. rewrite List.filter_app, (filter_no_match _ _ Hf).
  cbn [List.filter]. rewrite Hi. cbn [negb]. apply app_nil_r.
Qed.

Lemma find_app_old (items rest : list dict) item_id old :
  List.find (has_id item_id) items = Some old ->
  List.find (has_id item_id) (items ++ rest) = Some old.
Proof.
  induction items as [|d items IH]; cbn [List.find app]; [done|].
  destruct (has_id item_id d); [done|]. apply IH.
Qed.

(** X4: after a POST of an object, listing the collection gives the old
    sequence followed by the item POST answered with. *)
Theorem list_after_create prefix rq rq' o (d : dict) items w :
  authorized env rq ->
  authorized env rq' ->
  json_or_empty rq = JObj d ->
  collection rdb prefix w items ->
  exists item w',
    create_item env rdb prefix rq o w = (Ok (Response 201 item), w') /\
    list_items env rdb prefix rq' w' = (Ok (Response 200 (JArr (items ++ [item]))), w').
Proof.
  intros Ha Ha' Hd Hc. eexists _, _.
  split; [by apply create_item_dict|].
  apply list_items_collection; [done|]. apply collection_after_set.
Qed.

(** X5: a POST followed by a DELETE of the id of the new item gives back
    the collection of before, when no older item has that id. *)
Theorem create_then_delete prefix rq rq' o (d : dict) (items : list dict) item_id w :
  authorized env rq ->
  authorized env rq' ->
  json_or_empty rq = JObj d ->
  collection rdb prefix w (map JObj items) ->
  has_id item_id (stamped d o) = true ->
  Forall (fun old => has_id item_id old = false) items ->
  exists w1 w2,
    snd (create_item env rdb prefix rq o w) = w1 /\
    delete_item env rdb prefix item_id rq' w1 = (Ok deleted_ack, w2) /\
    collection rdb prefix w2 (map JObj items) /\
    replit_db w2 = <[prefix := json_dumps (JArr (map JObj items))]> (replit_db w) /\
    ai_log w2 = ai_log w.
Proof.
  intros Ha Ha' Hd Hc Hid Hfresh.
  rewrite (create_item_dict prefix rq o d _ w Ha Hd Hc). cbn [snd].
  set (w1 := snd (db_set prefix _ w)).
  assert (Hc1 : collection rdb prefix w1 (map JObj (items ++ [stamped d o]))).
  { rewrite map_app. apply collection_after_set. }
  destruct (db_delete_dicts prefix item_id _ w1 Hc1) as [Hdel Hc2].
  rewrite filter_app_new in Hdel, Hc2 by done.
  eexists w1, _. split; [done|]. split.
  - unfold delete_item. rewrite check_auth_ok by done. unfold_M. by rewrite Hdel.
  - split; [exact Hc2|]. split; [|done]. cbn. apply insert_insert_eq.
Qed.

(** X6: after a DELETE of an id, GET of that id answers 404, and no
    item of the collection has the id. *)
Theorem delete_then_get prefix item_id rq rq' (items : list dict) w :
  authorized env rq ->
  authorized env rq' ->
  collection rdb prefix w (map JObj items) ->
  exists w1 kept,
    delete_item env rdb prefix item_id rq w = (Ok deleted_ack, w1) /\
    collection rdb prefix w1 (map JObj kept) /\
    Forall (fun d => has_id item_id d = false) kept /\
    get_item env rdb prefix item_id rq' w1 = (Ok not_found, w1).
Proof.
  intros Ha Ha' Hc.
  destruct (db_delete_dicts prefix item_id items w Hc) as [Hdel Hc1].
  eexists _, _. split.
  { unfold delete_item. rewrite check_auth_ok by done. unfold_M. by rewrite Hdel. }
  split; [exact Hc1|]. split.
  - apply Forall_forall. intros d Hin. apply list_elem_of_In, filter_In in Hin as [_ Hk].
    by destruct (has_id item_id d).
  - rewrite (get_item_dicts prefix item_id rq' _ _ Hc1 Ha'). by rewrite find_filter_none.
Qed.

(** X7: ids are not kept unique.  A POST whose body carries an id that
    an item of the collection already has is accepted and appended, and
    GET of the id goes on answering with the older item. *)
Theorem duplicate_id_shadowed prefix rq rq' o (d old : dict) (items : list dict) item_id w :
  authorized env rq ->
  authorized env rq' ->
  json_or_empty rq = JObj d ->
  dict_get d "id" = Some (JStr item_id) ->
  collection rdb prefix w (map JObj items) ->
  List.find (has_id item_id) items = Some old ->
  exists item w',
    create_item env rdb prefix rq o w = (Ok (Response 201 (JObj item)), w') /\
    dict_get item "id" = Some (JStr item_id) /\
    collection rdb prefix w' (map JObj (items ++ [item])) /\
    get_item env rdb prefix item_id rq' w' = (Ok (Response 200 (JObj old)), w').
Proof.
  intros Ha Ha' Hd Hid Hc Hold.
  exists (stamped d o). eexists.
  split; [by apply create_item_dict|].
  split; [by rewrite stamped_id, Hid|].
  assert (Hc1 : collection rdb prefix (snd (db_set prefix
                  (json_dumps (JArr (map JObj items ++ [JObj (stamped d o)])%list)) w))
                  (map JObj (items ++ [stamped d o]))).
  { rewrite map_app. apply collection_after_set. }
  split; [exact Hc1|].
  rewrite (get_item_dicts prefix item_id rq' _ _ Hc1 Ha').
  by rewrite (find_app_old _ _ _ _ Hold).
Qed.

(** ** Failures *)

(** X8: when the stored text of a collection cannot be decoded, every
    CRUD handler raises the decoding error and leaves the state as it
    was: there is no recovery. *)
Theorem malformed_blob_propagates prefix item_id rq o (d : dict) e w :
  authorized env rq ->
  db_items rdb prefix w = (Raise e, w) ->
  list_items env rdb prefix rq w = (Raise e, w) /\
  get_item env rdb prefix item_id rq w = (Raise e, w) /\
  delete_item env rdb prefix item_id rq w = (Raise e, w) /\
  (json_or_empty rq = JObj d -> create_item env rdb prefix rq o w = (Raise e, w)).
Proof.
  intros Ha He. repeat split.
  - unfold list_items. rewrite check_auth_ok by done. unfold_M. by rewrite He.
  - unfold get_item. rewrite check_auth_ok by done. unfold_M. by rewrite He.
  - unfold delete_item, db_delete. rewrite check_auth_ok by done. unfold_M. by rewrite He.
  - intros Hd. unfold create_item, db_add, py_contains. rewrite check_auth_ok, Hd by done.
    unfold_M. destruct (bool_decide _); cbv beta iota delta [negb py_setitem]; by rewrite He.
Qed.

(** X9: a body that is true and not an object (a list, a string, a
    number, [true]) makes POST raise before anything is stored, and
    makes the parse endpoint raise outside its [try]: the answer is not
    its 500. *)
Theorem non_object_body_raises prefix rq o w :
  authorized env rq ->
  truthy (req_json rq) = true ->
  (forall d, req_json rq <> JObj d) ->
  (exists e, create_item env rdb prefix rq o w = (Raise e, w)) /\
  parse_voice env rq o w = (Raise (AttributeError (type_name (req_json rq)) "get"), w).
Proof.
  intros Ha Ht Hno. unfold create_item, parse_voice, json_or_empty.
  rewrite check_auth_ok, Ht by done. unfold_M.
  destruct (req_json rq) as [|b|n|s|l|d] eqn:E; try done; cbn [py_contains py_get type_name].
  - split; [by eexists|done].
  - split; [by eexists|done].
  - split; [|done]. destruct (negb _); by eexists.
  - split; [|done]. destruct (negb _); by eexists.
  - by destruct (Hno d).
Qed.

(** ** The provider that is called *)

(** X10: when the OpenAI client can be constructed, the parse endpoint
    sends it one request (model gpt-4o-mini, JSON mode, the built
    prompt) and answers from its reply alone: 200 with the decoded JSON,
    or 500 with the message of the exception of the call or of the
    decoding.  The other provider is not consulted, also when the call
    fails. *)
Theorem openai_is_preferred rq o w d c prompt :
  authorized env rq ->
  json_or_empty rq = JObj d ->
  let text := default (JStr EmptyString) (dict_get d "text") in
  let mode := default (JStr "alarm") (dict_get d "mode") in
  truthy text = true ->
  build_prompt mode text = Ok prompt ->
  OpenAI o = Ok c ->
  parse_voice env rq o w
  = (Ok (parse_answer (c (openai_request prompt))),
     World (replit_db w) (ai_log w ++ [openai_request prompt])).
Proof.
  intros Ha Hd text mode Ht Hp Hc.
  apply (parse_voice_provider rq o w d "openai" c prompt); try done; [|by left].
  unfold get_ai_client. by rewrite Hc.
Qed.

(** X11: the Anthropic client is used exactly when the OpenAI one cannot
    be constructed and it can: one request (model
    claude-sonnet-4-20250514, 1024 tokens, the prompt followed by the
    instruction to return only JSON), answered as for the other
    provider. *)
Theorem anthropic_is_fallback rq o w d e0 c prompt :
  authorized env rq ->
  json_or_empty rq = JObj d ->
  let text := default (JStr EmptyString) (dict_get d "text") in
  let mode := default (JStr "alarm") (dict_get d "mode") in
  truthy text = true ->
  build_prompt mode text = Ok prompt ->
  OpenAI o = Raise e0 ->
  Anthropic o = Ok c ->
  parse_voice env rq o w
  = (Ok (parse_answer (c (anthropic_request prompt))),
     World (replit_db w) (ai_log w ++ [anthropic_request prompt])).
Proof.
  intros Ha Hd text mode Ht Hp H0 Hc.
  apply (parse_voice_provider rq o w d "anthropic" c prompt); try done; [|by right].
  unfold get_ai_client. by rewrite H0, Hc.
Qed.

(** X12: when a provider is there and replies with the text of a JSON
    value, the parse endpoint answers 200 with that value, unchanged and
    unvalidated, after one call. *)
Theorem parse_returns_provider_json rq o w d provider c v :
  authorized env rq ->
  json_or_empty rq = JObj d ->
  let text := default (JStr EmptyString) (dict_get d "text") in
  let mode := default (JStr "alarm") (dict_get d "mode") in
  truthy text = true ->
  hashable mode = true ->
  get_ai_client o = Some (provider, c) ->
  (forall call, c call = Ok (json_dumps v)) ->
  exists call,
    parse_voice env rq o w
    = (Ok (Response 200 v), World (replit_db w) (ai_log w ++ [call])).
Proof.
  intros Ha Hd text mode Ht Hh Hc Hreply.
  assert (Hp : exists prompt, build_prompt mode text = Ok prompt).
  { unfold build_prompt, schemas_get. destruct mode; try done; by eexists. }
  destruct Hp as [prompt Hp].
  assert (Hprov : provider = "openai" \/ provider = "anthropic").
  { unfold get_ai_client in Hc.
    destruct (OpenAI o); [left; congruence|].
    destruct (Anthropic o); [right; congruence|done]. }
  eexists.
  rewrite (parse_voice_provider rq o w d provider c prompt Ha Hd Ht Hp Hc Hprov).
  unfold parse_answer. by rewrite Hreply, loads_dumps.
Qed.

(** ** Modes and templates *)

(** X13: the five modes have five different prompts: for the same text,
    two modes with the same prompt are the same mode. *)
Theorem modes_have_own_prompt m1 m2 text :
  In m1 modes -> In m2 modes ->
  build_prompt (JStr m1) text = build_prompt (JStr m2) text -> m1 = m2.
Proof.
  intros H1 H2 E.
  apply (f_equal (fun r => match r with
                           | Ok p => String.get 209 p
                           | Raise _ => None
                           end)) in E.
  cbn [modes In] in H1, H2.
  destruct H1 as [<-|[<-|[<-|[<-|[<-|[]]]]]];
    destruct H2 as [<-|[<-|[<-|[<-|[<-|[]]]]]];
    try reflexivity; vm_compute in E; discriminate E.
Qed.

(** X14: a mode that is not a string.  A number, a boolean or [null]
    is no key of the template table and gets the alarm prompt; a list
    or a dict cannot be hashed, and the parse endpoint answers 500 with
    that [TypeError] without calling a provider, whatever the
    providers. *)
Theorem mode_not_a_string rq o w d :
  authorized env rq ->
  json_or_empty rq = JObj d ->
  let text := default (JStr EmptyString) (dict_get d "text") in
  let mode := default (JStr "alarm") (dict_get d "mode") in
  truthy text = true ->
  (forall m, mode <> JStr m) ->
  (hashable mode = true ->
   build_prompt mode text = build_prompt (JStr "alarm") text) /\
  (hashable mode = false ->
   parse_voice env rq o w
   = (Ok (error_response (TypeError ("unhashable type: '" +:+ type_name mode +:+ "'"))), w)).
Proof.
  intros Ha Hd text mode Ht Hns. split; intros Hh.
  - destruct mode; try done. by destruct (Hns s).
  - rewrite (parse_voice_with_text rq o w d Ha Hd Ht). fold text mode.
    unfold parse_with_ai, build_prompt, schemas_get. unfold_M.
    by destruct mode.
Qed.

(** ** The URL map as a whole *)

Lemma find_rule_method rules rq r args :
  find_rule rules rq = Some (r, args) ->
  In (req_method rq) (rule_methods r) \/
  (req_method rq = "HEAD" /\ In "GET" (rule_methods r)).
Proof.
  induction rules as [|r0 rules IH]; cbn [find_rule]; [done|].
  destruct (match_path (rule_path r0) (req_path rq)) as [args0|]; [|exact IH].
  destruct (rule_allows r0 (req_method rq)) eqn:Ex; [|exact IH].
  intros [= <- <-]. unfold rule_allows in Ex.
  apply orb_true_iff in Ex as [Ex|Ex].
  - left. apply existsb_exists in Ex as (m & Hin & Hm).
    apply String.eqb_eq in Hm. by subst.
  - right. apply andb_true_iff in Ex as [Hh Hg].
    apply String.eqb_eq in Hh. split; [done|].
    apply existsb_exists in Hg as (m & Hin & Hm).
    apply String.eqb_eq in Hm. by subst.
Qed.

(** What [find_rule_method] leaves of a request on a rule with one
    method. *)
Lemma one_method meth m :
  In meth [m] \/ (meth = "HEAD" /\ In "GET" [m]) ->
  meth = m \/ (meth = "HEAD" /\ m = "GET").
Proof.
  cbn [In]. intros [[->|[]]|[-> [->|[]]]]; [by left|by right].
Qed.

Lemma match_path_nil path args :
  match_path [] path = Some args -> path = [] /\ args = [].
Proof. destruct path; cbn [match_path]; [|done]. by intros [= <-]. Qed.

Lemma match_path_2_eq a b path args :
  match_path [Lit a; Lit b] path = Some args -> path = [a; b] /\ args = [].
Proof.
  destruct path as [|x [|y [|z path]]]; cbn [match_path]; try done;
    destruct (String.eqb_spec a x); try done; destruct (String.eqb_spec b y); try done.
  intros [= <-]. by subst.
Qed.

Lemma match_path_3_eq a b n path args :
  match_path [Lit a; Lit b; Var n] path = Some args ->
  exists item_id, item_id <> EmptyString /\ path = [a; b; item_id] /\ args = [item_id].
Proof.
  destruct path as [|x [|y [|z [|z' path]]]]; cbn [match_path]; try done;
    destruct (String.eqb_spec a x); try done; destruct (String.eqb_spec b y); try done;
    destruct (String.eqb_spec z EmptyString); try done.
  intros [= <-]. subst. by exists z.
Qed.

Lemma in_crud_rule r :
  In r (url_map env rdb) ->
  r = Rule [] "index"
        (fun args _ _ => match args with [] => index rdb | _ => bad_call end) ["GET"] \/
  r = Rule [Lit "api"; Lit "parse"] "parse_voice"
        (fun args rq o => match args with [] => parse_voice env rq o | _ => bad_call end)
        ["POST"] \/
  exists p display_name, In p crud_prefixes /\ In r (make_crud env rdb p display_name).
Proof.
  unfold url_map. rewrite !in_app_iff. cbn [In crud_prefixes].
  intros [[<-|[<-|[]]]|[Hr|[Hr|[Hr|[Hr|[Hr|Hr]]]]]]; [by left|by right; left|..];
    right; right; eexists _, _; (split; [|exact Hr]); tauto.
Qed.

(** What a request must look like to reach a view, and which one. *)
Lemma dispatch_cases rq o m :
  dispatch env rdb rq o = Some m ->
  (In (req_method rq) ["GET"; "HEAD"] /\ req_path rq = [] /\ m = index rdb) \/
  (req_method rq = "POST" /\ req_path rq = ["api"; "parse"] /\ m = parse_voice env rq o) \/
  exists p, In p crud_prefixes /\
    ((In (req_method rq) ["GET"; "HEAD"] /\ req_path rq = ["api"; p] /\
      m = list_items env rdb p rq) \/
     (req_method rq = "POST" /\ req_path rq = ["api"; p] /\
      m = create_item env rdb p rq o) \/
     exists item_id, item_id <> EmptyString /\ req_path rq = ["api"; p; item_id] /\
       ((In (req_method rq) ["GET"; "HEAD"] /\ m = get_item env rdb p item_id rq) \/
        (req_method rq = "DELETE" /\ m = delete_item env rdb p item_id rq))).
Proof.
  unfold dispatch.
  destruct (find_rule (url_map env rdb) rq) as [[r args]|] eqn:Ef; [|done].
  intros [= <-].
  pose proof (find_rule_method _ _ _ _ Ef) as Hm.
  apply find_rule_spec in Ef as [Hin Hp].
  assert (Hread : forall meth, meth = "GET" \/ (meth = "HEAD" /\ "GET" = "GET") ->
                    In meth ["GET"; "HEAD"]).
  { intros meth [->|[-> _]]; cbn [In]; tauto. }
  assert (Hwrite : forall meth m0, m0 <> "GET" ->
                     meth = m0 \/ (meth = "HEAD" /\ m0 = "GET") -> meth = m0).
  { intros meth m0 Hne [->|[_ ->]]; [done|by destruct Hne]. }
  apply in_crud_rule in Hin as [->|[->|(p & dn & Hpin & Hr)]];
    cbn [rule_path rule_methods rule_view] in *.
  - apply match_path_nil in Hp as [? ->]. left. apply one_method in Hm. by split; [apply Hread|].
  - apply match_path_2_eq in Hp as [? ->]. right; left. apply one_method in Hm.
    split; [by apply (Hwrite _ "POST")|done].
  - right; right. exists p. split; [done|]. unfold make_crud in Hr.
    destruct Hr as [<-|[<-|[<-|[<-|[]]]]]; cbn [rule_path rule_methods rule_view] in *;
      apply one_method in Hm.
    + apply match_path_2_eq in Hp as [? ->]. left. by split; [apply Hread|].
    + apply match_path_2_eq in Hp as [? ->]. right; left.
      split; [by apply (Hwrite _ "POST")|done].
    + apply match_path_3_eq in Hp as (item_id & ? & ? & ->).
      right; right. exists item_id. repeat split; try done. left. by split; [apply Hread|].
    + apply match_path_3_eq in Hp as (item_id & ? & ? & ->).
      right; right. exists item_id. repeat split; try done. right.
      split; [by apply (Hwrite _ "DELETE")|done].
Qed.

(** X15: what a request with a wrong key gets: the 401 everywhere but
    on the index page, which answers 200 with the service description
    (and the backend in use) to anyone; the state is unchanged in both
    cases. *)
Theorem wrong_key_sees_only_index rq o m w :
  ~ authorized env rq ->
  dispatch env rdb rq o = Some m ->
  (req_path rq = [] -> m w = (Ok (Response 200 (index_body rdb)), w)) /\
  (req_path rq <> [] -> m w = (Ok unauthorized, w)).
Proof.
  intros Hn Hd.
  apply dispatch_cases in Hd
    as [(_ & E & ->)|[(_ & E & ->)|(p & _ & [(_ & E & ->)|[(_ & E & ->)|(i & _ & E & [(_ & ->)|(_ & ->)])]])]];
    rewrite E; (split; [intros Hp|intros Hp]); try discriminate Hp; try done.
  - by apply parse_voice_unauthorized.
  - by apply list_items_unauthorized.
  - by apply create_item_unauthorized.
  - by apply get_item_unauthorized.
  - by apply delete_item_unauthorized.
Qed.

(** X16: a GET never changes the state: neither a stored collection nor
    the log of provider calls, whatever the path, the key and the
    outcome. *)
Theorem get_is_read_only rq o m w :
  req_method rq = "GET" ->
  dispatch env rdb rq o = Some m ->
  snd (m w) = w.
Proof.
  intros Hg Hd.
  apply dispatch_cases in Hd
    as [(_ & _ & ->)|[(Hm & _)|(p & _ & [(_ & _ & ->)|[(Hm & _)|(i & _ & _ & [(_ & ->)|(Hm & _)])]])]];
    try (rewrite Hg in Hm; discriminate Hm).
  - done.
  - apply list_items_state.
  - apply get_item_state.
Qed.

Lemma find_rule_head rules rq :
  Forall (fun r => existsb (String.eqb "HEAD") (rule_methods r) = false) rules ->
  find_rule rules (with_method "HEAD" rq) = find_rule rules (with_method "GET" rq).
Proof.
  induction 1 as [|r rules Hr _ IH]; cbn [find_rule]; [done|].
  cbn [with_method req_path req_method]. cbn [with_method] in IH. rewrite IH.
  unfold rule_allows. rewrite Hr. by destruct (existsb (String.eqb "GET") (rule_methods r)).
Qed.

Lemma url_map_no_head :
  Forall (fun r => existsb (String.eqb "HEAD") (rule_methods r) = false) (url_map env rdb).
Proof.
  assert (Hcrud : forall p dn,
            Forall (fun r => existsb (String.eqb "HEAD") (rule_methods r) = false)
              (make_crud env rdb p dn)).
  { intros p dn. unfold make_crud. by repeat constructor. }
  unfold url_map. repeat (apply Forall_app; split); try apply Hcrud.
  by repeat constructor.
Qed.

(** X17: nothing is routed outside the registered rules.  A method
    other than GET, HEAD, POST and DELETE reaches no view (there is no
    update); under /api only [parse] and the six collections exist; POST
    is not routed on a path of three segments or more; and HEAD, which
    the framework adds to the rules registered with GET, finds the rule
    and the captured id that GET finds. *)
Theorem only_registered_routes rq o :
  (~ In (req_method rq) ["GET"; "HEAD"; "POST"; "DELETE"] ->
   dispatch env rdb rq o = None) /\
  (forall p rest, req_path rq = "api" :: p :: rest ->
     p <> "parse" -> ~ In p crud_prefixes -> dispatch env rdb rq o = None) /\
  (forall a b c rest, req_path rq = a :: b :: c :: rest ->
     req_method rq = "POST" -> dispatch env rdb rq o = None) /\
  find_rule (url_map env rdb) (with_method "HEAD" rq)
  = find_rule (url_map env rdb) (with_method "GET" rq).
Proof.
  split; [|split; [|split]].
  - intros Hn. destruct (dispatch env rdb rq o) as [m|] eqn:Ed; [|done].
    destruct Hn. cbn [In].
    apply dispatch_cases in Ed
      as [(Hm & _)|[(-> & _)|(p & _ & [(Hm & _)|[(-> & _)|(i & _ & _ & [(Hm & _)|(-> & _)])]])]];
      try cbn [In] in Hm; tauto.
  - intros p rest Hpath Hp Hnot.
    destruct (dispatch env rdb rq o) as [m|] eqn:Ed; [|done].
    apply dispatch_cases in Ed
      as [(_ & E & _)|[(_ & E & _)|(q & Hq & [(_ & E & _)|[(_ & E & _)|(i & _ & E & _)]])]];
      rewrite Hpath in E; try discriminate E; injection E as -> _; done.
  - intros a b c rest Hpath Hm.
    destruct (dispatch env rdb rq o) as [m|] eqn:Ed; [|done].
    apply dispatch_cases in Ed
      as [(_ & E & _)|[(_ & E & _)|(q & Hq & [(_ & E & _)|[(_ & E & _)|(i & _ & _ & [(Hm' & _)|(Hm' & _)])]])]];
      try (rewrite Hpath in E; discriminate E); rewrite Hm in Hm';
      [cbn [In] in Hm'; by destruct Hm' as [Hm'|[Hm'|[]]]|discriminate Hm'].
  - apply find_rule_head, url_map_no_head.
Qed.

(** X18: each of the six collections has its four routes: GET and POST
    on /api/<collection>, GET and DELETE on /api/<collection>/<id> for a
    non-empty id, each bound to the handler of that collection. *)
Theorem crud_routes p item_id hs b o :
  In p crud_prefixes ->
  item_id <> EmptyString ->
  let on_collection meth := Request meth ["api"; p] hs b in
  let on_item meth := Request meth ["api"; p; item_id] hs b in
  dispatch env rdb (on_collection "GET") o
    = Some (list_items env rdb p (on_collection "GET")) /\
  dispatch env rdb (on_collection "POST") o
    = Some (create_item env rdb p (on_collection "POST") o) /\
  dispatch env rdb (on_item "GET") o
    = Some (get_item env rdb p item_id (on_item "GET")) /\
  dispatch env rdb (on_item "DELETE") o
    = Some (delete_item env rdb p item_id (on_item "DELETE")).
Proof.
  intros Hp Hne. destruct item_id as [|c item_id]; [done|].
  cbn [crud_prefixes In] in Hp.
  destruct Hp as [<-|[<-|[<-|[<-|[<-|[<-|[]]]]]]]; repeat split; reflexivity.
Qed.

(** ** The configured key *)

Lemma headers_get_absent hs name dflt :
  Forall (fun kv => lower (fst kv) <> lower name) hs -> headers_get hs name dflt = dflt.
Proof.
  induction 1 as [|[k v] hs Hk _ IH]; cbn [headers_get]; [done|].
  cbn [fst] in Hk. by destruct (String.eqb_spec (lower k) (lower name)).
Qed.

(** X19: a request without the X-API-KEY header passes the key check
    exactly when the configured key is the empty string; with the
    default key, or any other non-empty one, it is answered 401. *)
Theorem missing_header_and_empty_key rq :
  lacks_header "X-API-KEY" rq ->
  (API_KEY env = EmptyString -> check_auth env rq = None) /\
  (API_KEY env <> EmptyString -> check_auth env rq = Some unauthorized).
Proof.
  intros Hl. unfold lacks_header in Hl.
  pose proof (headers_get_absent _ _ EmptyString Hl) as Hg.
  split; intros Hk.
  - apply check_auth_ok. unfold authorized. by rewrite Hg, Hk.
  - apply check_auth_bad. unfold authorized. rewrite Hg. congruence.
Qed.

(** ** Stored values are never empty *)

Lemma no_empty_set key v w :
  no_empty_value w -> no_empty_value (snd (db_set key (json_dumps v) w)).
Proof.
  intros Hw k. cbn. destruct (decide (key = k)) as [->|Hne].
  - rewrite lookup_insert_eq. intros [= E]. by apply dumps_nonempty in E.
  - rewrite lookup_insert_ne by done. apply Hw.
Qed.

Lemma no_empty_same_db w w' :
  replit_db w' = replit_db w -> no_empty_value w -> no_empty_value w'.
Proof. intros E Hw k. rewrite E. apply Hw. Qed.

Lemma dispatch_keeps_no_empty rq o m w :
  dispatch env rdb rq o = Some m ->
  no_empty_value w -> no_empty_value (snd (m w)).
Proof.
  intros Hd Hw.
  apply dispatch_cases in Hd
    as [(_ & _ & ->)|[(_ & _ & ->)|(p & _ & [(_ & _ & ->)|[(_ & _ & ->)|(i & _ & _ & [(_ & ->)|(_ & ->)])]])]].
  - done.
  - eapply no_empty_same_db; [apply parse_voice_db|done].
  - by rewrite list_items_state.
  - destruct (create_item_step p rq o w) as [->|[v ->]]; [done|by apply no_empty_set].
  - by rewrite get_item_state.
  - destruct (delete_item_step p i rq w) as [->|[v ->]]; [done|by apply no_empty_set].
Qed.

(** ** Ids that are not strings *)

Lemma has_id_not_string item_id (d : dict) v :
  dict_get d "id" = Some v -> (forall s, v <> JStr s) -> has_id item_id d = false.
Proof.
  intros Hv Hns. unfold has_id. rewrite Hv. cbn [default from_option id].
  destruct v; try done. by destruct (Hns s).
Qed.

Lemma find_app_miss item_id (items : list dict) item :
  has_id item_id item = false ->
  List.find (has_id item_id) (items ++ [item]) = List.find (has_id item_id) items.
Proof.
  intros Hm. induction items as [|d items IH]; cbn [app List.find].
  - by rewrite Hm.
  - by destruct (has_id item_id d).
Qed.

(** X20: an id of the caller that is not a string (a number, [null], a
    list) is stored as it is, and then no path id equals it: GET by id
    answers as if the item were not there, and DELETE keeps it, for
    every id. *)
Theorem non_string_id_unreachable prefix rq rq' o (d : dict) v (items : list dict) item_id w :
  authorized env rq ->
  authorized env rq' ->
  json_or_empty rq = JObj d ->
  dict_get d "id" = Some v ->
  (forall s, v <> JStr s) ->
  collection rdb prefix w (map JObj items) ->
  exists item w' w2,
    create_item env rdb prefix rq o w = (Ok (Response 201 (JObj item)), w') /\
    dict_get item "id" = Some v /\
    fst (get_item env rdb prefix item_id rq' w') = fst (get_item env rdb prefix item_id rq' w) /\
    delete_item env rdb prefix item_id rq' w' = (Ok deleted_ack, w2) /\
    collection rdb prefix w2
      (map JObj (List.filter (fun old => negb (has_id item_id old)) items ++ [item])).
Proof.
  intros Ha Ha' Hd Hv Hns Hc.
  set (item := stamped d o).
  assert (Hi : dict_get item "id" = Some v) by (unfold item; by rewrite stamped_id, Hv).
  assert (Hm : has_id item_id item = false) by by eapply has_id_not_string.
  assert (Hc1 : collection rdb prefix (snd (db_set prefix
                  (json_dumps (JArr (map JObj items ++ [JObj item])%list)) w))
                  (map JObj (items ++ [item]))).
  { rewrite map_app. apply collection_after_set. }
  destruct (db_delete_dicts prefix item_id _ _ Hc1) as [Hdel Hc2].
  rewrite List.filter_app in Hdel, Hc2. cbn [List.filter] in Hdel, Hc2.
  rewrite Hm in Hdel, Hc2. cbn [negb] in Hdel, Hc2.
  exists item,
    (snd (db_set prefix (json_dumps (JArr (map JObj items ++ [JObj item])%list)) w)).
  eexists.
  split; [by apply create_item_dict|]. split; [exact Hi|]. split; [|split; [|exact Hc2]].
  - rewrite (get_item_dicts prefix item_id rq' _ _ Hc1 Ha'),
            (get_item_dicts prefix item_id rq' _ _ Hc Ha').
    cbn [fst]. by rewrite find_app_miss.
  - unfold delete_item. rewrite check_auth_ok by done. unfold_M. by rewrite Hdel.
Qed.

(** ** Provider calls *)

Lemma parse_voice_log rq o w :
  exists calls,
    ai_log (snd (parse_voice env rq o w)) = (ai_log w ++ calls)%list /\
    (length calls <= 1)%nat.
Proof.
  assert (Hnil : exists calls, ai_log w = (ai_log w ++ calls)%list /\ (length calls <= 1)%nat).
  { exists []. split; [by rewrite app_nil_r|cbn; lia]. }
  unfold parse_voice. destruct (check_auth env rq); [exact Hnil|]. unfold_M.
  destruct (py_get _ "text" _) as [text|]; [|exact Hnil].
  destruct (py_get _ "mode" _) as [mode|]; [|exact Hnil].
  destruct (negb (truthy text)); [exact Hnil|].
  destruct (parse_with_ai text mode o w) as [r w'] eqn:Ep.
  apply parse_with_ai_effects in Ep as [_ Hlog]. by destruct r.
Qed.

(** X21: a request makes at most one provider call, and none unless it
    is a POST on /api/parse: every other route leaves the log of calls
    as it was. *)
Theorem one_provider_call_per_request rq o m w :
  dispatch env rdb rq o = Some m ->
  (exists calls,
     ai_log (snd (m w)) = (ai_log w ++ calls)%list /\ (length calls <= 1)%nat) /\
  (req_path rq <> ["api"; "parse"] -> ai_log (snd (m w)) = ai_log w).
Proof.
  intros Hd.
  assert (Hsame : ai_log (snd (m w)) = ai_log w ->
    (exists calls,
       ai_log (snd (m w)) = (ai_log w ++ calls)%list /\ (length calls <= 1)%nat) /\
    (req_path rq <> ["api"; "parse"] -> ai_log (snd (m w)) = ai_log w)).
  { intros E. split; [|done]. exists []. split; [by rewrite app_nil_r|cbn; lia]. }
  apply dispatch_cases in Hd
    as [(_ & _ & ->)|[(_ & E & ->)|(p & _ & [(_ & _ & ->)|[(_ & _ & ->)|(i & _ & _ & [(_ & ->)|(_ & ->)])]])]].
  - by apply Hsame.
  - split; [apply parse_voice_log|]. by rewrite E.
  - apply Hsame. by rewrite list_items_state.
  - apply Hsame. by destruct (create_item_step p rq o w) as [->|[v ->]].
  - apply Hsame. by rewrite get_item_state.
  - apply Hsame. by destruct (delete_item_step p i rq w) as [->|[v ->]].
Qed.

End Properties.

(** ** The two storage backends *)

Section Backends.
Context `{PyLib}.
Variable env : gmap string string.

Lemma db_get_backends key dflt w :
  no_empty_value w -> db_get true key dflt w = db_get false key dflt w.
Proof.
  intros Hw. unfold db_get. specialize (Hw key).
  destruct (replit_db w !! key) as [val|]; [|done]. cbn [default from_option id].
  destruct (String.eqb_spec val EmptyString) as [->|_]; [by destruct Hw|done].
Qed.

Lemma db_items_backends prefix w :
  no_empty_value w -> db_items true prefix w = db_items false prefix w.
Proof. intros Hw. unfold db_items. unfold_M. by rewrite db_get_backends. Qed.

Lemma db_add_backends prefix item w :
  no_empty_value w -> db_add true prefix item w = db_add false prefix item w.
Proof. intros Hw. unfold db_add. unfold_M. by rewrite db_items_backends. Qed.

Lemma db_delete_backends prefix item_id w :
  no_empty_value w -> db_delete true prefix item_id w = db_delete false prefix item_id w.
Proof. intros Hw. unfold db_delete. unfold_M. by rewrite db_items_backends. Qed.

Lemma list_items_backends prefix rq w :
  no_empty_value w -> list_items env true prefix rq w = list_items env false prefix rq w.
Proof.
  intros Hw. unfold list_items. destruct (check_auth env rq); [done|].
  unfold_M. by rewrite db_items_backends.
Qed.

Lemma get_item_backends prefix item_id rq w :
  no_empty_value w ->
  get_item env true prefix item_id rq w = get_item env false prefix item_id rq w.
Proof.
  intros Hw. unfold get_item. destruct (check_auth env rq); [done|].
  unfold_M. by rewrite db_items_backends.
Qed.

Lemma delete_item_backends prefix item_id rq w :
  no_empty_value w ->
  delete_item env true prefix item_id rq w = delete_item env false prefix item_id rq w.
Proof.
  intros Hw. unfold delete_item. destruct (check_auth env rq); [done|].
  unfold_M. by rewrite db_delete_backends.
Qed.

Lemma create_item_backends prefix rq o w :
  no_empty_value w ->
  create_item env true prefix rq o w = create_item env false prefix rq o w.
Proof.
  intros Hw. unfold create_item. destruct (check_auth env rq); [done|]. unfold_M.
  destruct (py_contains "id" (json_or_empty rq)) as [has|e]; [|done].
  destruct (negb has).
  - destruct (py_setitem (json_or_empty rq) "id" _) as [data|e]; [|done].
    destruct (py_setitem data "createdAt" _) as [data'|e]; [|done].
    by rewrite db_add_backends.
  - destruct (py_setitem (json_or_empty rq) "createdAt" _) as [data'|e]; [|done].
    by rewrite db_add_backends.
Qed.

Lemma find_rule_same l1 l2 rq :
  Forall2 same_rule l1 l2 ->
  match find_rule l1 rq, find_rule l2 rq with
  | Some (r1, a1), Some (r2, a2) => a1 = a2 /\ same_rule r1 r2
  | None, None => True
  | _, _ => False
  end.
Proof.
  induction 1 as [|r1 r2 l1 l2 Hr _ IH]; cbn [find_rule]; [done|].
  pose proof Hr as (Hp & Hm & _). unfold rule_allows. rewrite <- Hp, <- Hm.
  destruct (match_path (rule_path r1) (req_path rq)) as [args|]; [|exact IH].
  destruct (_ || _); [|exact IH]. by split.
Qed.

Lemma same_rule_views path endpoint v1 v2 methods :
  (forall args rq o w, no_empty_value w -> v1 args rq o w = v2 args rq o w) ->
  same_rule (Rule path endpoint v1 methods) (Rule path endpoint v2 methods).
Proof.
  intros Hv. split; [done|]. split; [done|].
  intros args rq o w Hw. cbn [rule_view]. by rewrite (Hv args rq o w Hw).
Qed.

Lemma make_crud_same prefix display_name :
  Forall2 same_rule (make_crud env true prefix display_name)
                    (make_crud env false prefix display_name).
Proof.
  unfold make_crud.
  repeat (constructor; [apply same_rule_views; intros args rq o w Hw|]).
  - destruct args; [|done]. by apply list_items_backends.
  - destruct args; [|done]. by apply create_item_backends.
  - destruct args as [|item_id [|]]; try done. by apply get_item_backends.
  - destruct args as [|item_id [|]]; try done. by apply delete_item_backends.
  - constructor.
Qed.

Lemma url_map_same : Forall2 same_rule (url_map env true) (url_map env false).
Proof.
  unfold url_map.
  apply Forall2_app; [|repeat (apply Forall2_app; [apply make_crud_same|]);
                       apply make_crud_same].
  constructor; [|constructor; [|constructor]].
  - split; [done|]. split; [done|]. intros args rq o w Hw. cbn [rule_view rule_path].
    split; [by destruct args|done].
  - apply same_rule_views. intros args rq o w Hw. by destruct args.
Qed.

Lemma dispatch_same rq o w :
  no_empty_value w ->
  match dispatch env true rq o, dispatch env false rq o with
  | Some m1, Some m2 => snd (m1 w) = snd (m2 w) /\ (req_path rq <> [] -> m1 w = m2 w)
  | None, None => True
  | _, _ => False
  end.
Proof.
  intros Hw. unfold dispatch.
  pose proof (find_rule_same _ _ rq url_map_same) as Hs.
  destruct (find_rule (url_map env true) rq) as [[r1 a1]|] eqn:E1;
    destruct (find_rule (url_map env false) rq) as [[r2 a2]|];
    [|destruct Hs|destruct Hs|exact I].
  destruct Hs as (-> & _ & _ & Hv). destruct (Hv a2 rq o w Hw) as [Hsnd Heq].
  split; [done|]. intros Hpath. apply Heq. intros Hnil.
  apply find_rule_spec in E1 as [_ Hm]. rewrite Hnil in Hm.
  apply match_path_nil in Hm as [? _]. done.
Qed.

(** X2: the two storage backends cannot be told apart.  From the empty
    store, any sequence of requests leads both to the same state, and
    there the next request gets the same state change from both and,
    except on the index page (which shows the backend), the same
    answer. *)
Theorem backends_agree reqs rq o :
  let w := serve env true reqs (World ∅ []) in
  w = serve env false reqs (World ∅ []) /\
  match dispatch env true rq o, dispatch env false rq o with
  | Some m1, Some m2 => snd (m1 w) = snd (m2 w) /\ (req_path rq <> [] -> m1 w = m2 w)
  | None, None => True
  | _, _ => False
  end.
Proof.
  assert (Hgen : forall w, no_empty_value w ->
            serve env true reqs w = serve env false reqs w /\
            no_empty_value (serve env true reqs w)).
  { induction reqs as [|[rq1 o1] reqs IH]; intros w Hw; cbn [serve]; [done|].
    pose proof (dispatch_same rq1 o1 w Hw) as Hs.
    pose proof (dispatch_keeps_no_empty env true rq1 o1) as Hk.
    destruct (dispatch env true rq1 o1) as [m1|];
      destruct (dispatch env false rq1 o1) as [m2|];
      [|destruct Hs|destruct Hs|exact (IH w Hw)].
    destruct Hs as [<- _]. apply IH. exact (Hk m1 w eq_refl Hw). }
  destruct (Hgen (World ∅ [])) as [Heq Hne].
  { intros k. cbn. by rewrite lookup_empty. }
  split; [exact Heq|]. by apply dispatch_same.
Qed.

End Backends.

(** ** Runs of the program on the reference library *)

Example str_uuid_zero : str_uuid (uuid4 0) = "00000000-0000-4000-8000-000000000000".
Proof. reflexivity. Qed.

Example str_uuid_ones :
  str_uuid (uuid4 (2 ^ 128 - 1)) = "ffffffff-ffff-4fff-bfff-ffffffffffff".
Proof. vm_compute. reflexivity. Qed.

Example isoformat_micro :
  isoformat (DateTime 2024 3 9 7 5 1 42) = "2024-03-09T07:05:01.000042".
Proof. reflexivity. Qed.

(** POST on the empty store: the item and the blob written. *)
Example post_on_empty_store :
  create_item (H := ref_pylib) ∅ false "alarms"
    (Request "POST" ["api"; "alarms"] dev_key (JObj [("label", JStr "x")]))
    sample_oracle empty_world
  = (Ok (Response 201
           (JObj [("label", JStr "x");
                  ("id", JStr "00000000-0000-4000-8000-000000000000");
                  ("createdAt", JStr "2024-01-02T03:04:05")])),
     World {[ "alarms" :=
                dq "[{'label': 'x', 'id': '00000000-0000-4000-8000-000000000000', 'createdAt': '2024-01-02T03:04:05'}]" ]}
           []).
Proof. vm_compute. reflexivity. Qed.

(** A body that is a list: the item assignment raises, nothing is stored. *)
Example post_list_body_raises :
  create_item (H := ref_pylib) ∅ false "alarms"
    (Request "POST" ["api"; "alarms"] dev_key (JArr [JInt 1]))
    sample_oracle empty_world
  = (Raise (TypeError "list indices must be integers or slices, not str"), empty_world).
Proof. vm_compute. reflexivity. Qed.

(** A stored element that is not a dict: [.get] raises in DELETE. *)
Example delete_non_dict_raises :
  let w := World {[ "moods" := "[1]" ]} [] in
  delete_item (H := ref_pylib) ∅ false "moods" "1"
    (Request "DELETE" ["api"; "moods"; "1"] dev_key JNull) w
  = (Raise (AttributeError "int" "get"), w).
Proof. vm_compute. reflexivity. Qed.

(** GET by id returns the first of two items with the same id. *)
Example get_first_match :
  get_item (H := ref_pylib) ∅ false "alarms" "a1"
    (Request "GET" ["api"; "alarms"; "a1"] dev_key JNull) sample_world
  = (Ok (Response 200 (JObj [("id", JStr "a1"); ("label", JStr "wake")])), sample_world).
Proof. vm_compute. reflexivity. Qed.

(** The first provider fails to construct, the second answers. *)
Example parse_falls_back :
  let o := Oracle 0 (DateTime 2024 1 2 3 4 5 0)
             (Raise (no_module "openai"))
             (Ok (fun _ => Ok (dq "{'mood': 'calm', 'level': 1}"))) in
  let rq := Request "POST" ["api"; "parse"] dev_key
              (JObj [("text", JStr "fine"); ("mode", JStr "mood")]) in
  exists prompt,
    build_prompt (H := ref_pylib) (JStr "mood") (JStr "fine") = Ok prompt /\
    parse_voice (H := ref_pylib) ∅ rq o empty_world
    = (Ok (Response 200 (JObj [("mood", JStr "calm"); ("level", JInt 1)])),
       World ∅ [AiRequest "anthropic" "claude-sonnet-4-20250514"
                  (prompt +:+ newline +:+ newline +:+ "Return ONLY valid JSON, no other text.")
                  (Some 1024) false None]).
Proof. eexists. split; vm_compute; reflexivity. Qed.

(** The provider call raises: 500 with the message, one call logged. *)
Example parse_provider_error :
  let o := Oracle 0 (DateTime 2024 1 2 3 4 5 0)
             (Ok (fun _ => Raise (Exn "RateLimitError" "rate limit exceeded")))
             (Raise (no_module "anthropic")) in
  let rq := Request "POST" ["api"; "parse"] dev_key (JObj [("text", JStr "fine")]) in
  exists call,
    parse_voice (H := ref_pylib) ∅ rq o empty_world
    = (Ok (Response 500 (JObj [("error", JStr "rate limit exceeded")])), World ∅ [call]) /\
    ai_provider call = "openai" /\ ai_model call = "gpt-4o-mini".
Proof. eexists. split; [vm_compute; reflexivity|]. by split. Qed.

(** A mode that is a list cannot be looked up: the [TypeError] is the
    500, also when no provider is there. *)
Example parse_mode_list :
  parse_voice (H := ref_pylib) ∅
    (Request "POST" ["api"; "parse"] dev_key
       (JObj [("text", JStr "fine"); ("mode", JArr [])]))
    sample_oracle empty_world
  = (Ok (Response 500 (JObj [("error", JStr "unhashable type: 'list'")])), empty_world).
Proof. vm_compute. reflexivity. Qed.

(** HEAD runs the view registered for GET. *)
Example head_runs_list_items :
  let rq := Request "HEAD" ["api"; "alarms"] dev_key JNull in
  dispatch (H := ref_pylib) ∅ false rq sample_oracle
  = Some (list_items (H := ref_pylib) ∅ false "alarms" rq).
Proof. reflexivity. Qed.

(** OPTIONS reaches no view. *)
Example options_reaches_no_view :
  dispatch (H := ref_pylib) ∅ false
    (Request "OPTIONS" ["api"; "alarms"] dev_key JNull) sample_oracle = None.
Proof. reflexivity. Qed.

(** Header names compare without case. *)
Example header_case :
  authorized ∅ (Request "GET" ["api"; "inbox"] [("x-api-key", "habitcards-dev-key")] JNull).
Proof. reflexivity. Qed.

(** The configured key replaces the default one. *)
Example configured_key :
  let env : gmap string string := {[ "HABITCARDS_API_KEY" := "s3cret" ]} in
  list_items (H := ref_pylib) env false "inbox"
    (Request "GET" ["api"; "inbox"] dev_key JNull) empty_world
  = (Ok unauthorized, empty_world).
Proof. vm_compute. reflexivity. Qed.

(** ** The statements at sample inputs *)

Lemma C8_witness :
  replit_db empty_world !! "moods" = None /\
  list_items (H := ref_pylib) ∅ false "moods" (Request "GET" ["api"; "moods"] dev_key JNull) empty_world
  = (Ok (Response 200 (JArr [])), empty_world).
Proof.
  split; [reflexivity|].
  apply (C8_list_never_written (H := ref_pylib) ∅ false "moods"
           (Request "GET" ["api"; "moods"] dev_key JNull) empty_world);
    reflexivity.
Defined.

Lemma C4_witness :
  collection (H := ref_pylib) false "alarms" sample_world (map JObj sample_items) /\
  exists w',
    db_add (H := ref_pylib) false "alarms" (JInt 7) sample_world = (Ok (JInt 7), w') /\
    collection (H := ref_pylib) false "alarms" w' (map JObj sample_items ++ [JInt 7]).
Proof.
  assert (Hc : collection (H := ref_pylib) false "alarms" sample_world (map JObj sample_items))
    by (vm_compute; reflexivity).
  split; [exact Hc|].
  destruct (C4_db_add_appends (H := ref_pylib) false "alarms" (JInt 7) _ _ Hc)
    as (w' & Ha & Hc' & _).
  exists w'. by split.
Defined.

Lemma C1_witness :
  let rq := Request "DELETE" ["api"; "alarms"; "a1"] [("X-API-KEY", "guess")] JNull in
  ~ authorized ∅ rq /\
  exists r args,
    find_rule (url_map (H := ref_pylib) ∅ false) rq = Some (r, args) /\
    rule_endpoint r <> "index" /\
    rule_view r args rq sample_oracle sample_world = (Ok unauthorized, sample_world).
Proof.
  intros rq.
  assert (Hn : ~ authorized ∅ rq) by (vm_compute; discriminate).
  split; [exact Hn|].
  eexists _, _. split; [reflexivity|].
  assert (Hi : "delete_" +:+ "alarms" <> "index") by (vm_compute; discriminate).
  split; [exact Hi|].
  exact (C1_unauthorized_no_effect (H := ref_pylib) ∅ false rq sample_oracle _ _
           sample_world Hn eq_refl Hi).
Defined.

Lemma C2_witness :
  let post := Request "POST" ["api"; "alarms"] dev_key (JObj [("label", JStr "x")]) in
  let new_id := str_uuid (uuid4 (rand128 sample_oracle)) in
  let get := Request "GET" ["api"; "alarms"; new_id] dev_key JNull in
  (authorized ∅ post /\ authorized ∅ get /\
   collection (H := ref_pylib) false "alarms" sample_world (map JObj sample_items) /\
   Forall (fun d => has_id new_id d = false) sample_items) /\
  exists item w' m1 m2,
    dispatch (H := ref_pylib) ∅ false post sample_oracle = Some m1 /\
    m1 sample_world = (Ok (Response 201 (JObj item)), w') /\
    dict_get item "id" = Some (JStr new_id) /\
    dispatch (H := ref_pylib) ∅ false get sample_oracle = Some m2 /\
    m2 w' = (Ok (Response 200 (JObj item)), w') /\
    dict_get item "label" = Some (JStr "x").
Proof.
  intros post new_id get.
  assert (Hp : authorized ∅ post) by reflexivity.
  assert (Hg : authorized ∅ get) by reflexivity.
  assert (Hc : collection (H := ref_pylib) false "alarms" sample_world (map JObj sample_items))
    by (vm_compute; reflexivity).
  assert (Hf : Forall (fun d => has_id new_id d = false) sample_items)
    by (repeat constructor).
  split; [by repeat split|].
  destruct (C2_post_then_get (H := ref_pylib) ∅ false dev_key dev_key JNull
              sample_oracle sample_oracle sample_items sample_world Hp Hg Hc Hf)
    as (item & w' & m1 & m2 & H1 & H2 & H3 & _ & H5 & H6 & H7 & _ & _).
  exists item, w', m1, m2. by repeat split.
Defined.

Lemma C3_witness :
  let rq := Request "DELETE" ["api"; "alarms"; "a1"] dev_key JNull in
  (collection (H := ref_pylib) false "alarms" sample_world (map JObj sample_items) /\
   authorized ∅ rq) /\
  exists w1,
    delete_item (H := ref_pylib) ∅ false "alarms" "a1" rq sample_world = (Ok deleted_ack, w1) /\
    collection (H := ref_pylib) false "alarms" w1
      [JObj [("label", JStr "no id")]; JObj [("id", JStr "a2"); ("label", JStr "nap")]] /\
    delete_item (H := ref_pylib) ∅ false "alarms" "a1" rq w1 = (Ok deleted_ack, w1).
Proof.
  intros rq.
  assert (Hc : collection (H := ref_pylib) false "alarms" sample_world (map JObj sample_items))
    by (vm_compute; reflexivity).
  assert (Ha : authorized ∅ rq) by reflexivity.
  split; [by split|].
  destruct (C3_remove_by_id (H := ref_pylib) ∅ false "alarms" "a1" rq sample_items
              sample_world Hc Ha) as (w1 & _ & Hk & _ & _ & Hd1 & Hd2).
  exists w1. by repeat split.
Defined.

Lemma C5_witness :
  ~ In "reminder" modes /\
  build_prompt (H := ref_pylib) (JStr "reminder") (JStr "call mum at noon")
  = build_prompt (H := ref_pylib) (JStr "alarm") (JStr "call mum at noon").
Proof.
  assert (Hn : ~ In "reminder" modes) by (simpl; intuition discriminate).
  split; [exact Hn|].
  exact (C5_unknown_mode_alarm (H := ref_pylib) "reminder" (JStr "call mum at noon") Hn).
Defined.

(** The claim C6 as it was written fails on a list as mode: with no
    provider, [parse_with_ai] raises the [TypeError] of the lookup, not
    "No AI provider available". *)
Lemma C6_counterexample :
  (exists e1 e2, OpenAI sample_oracle = Raise e1 /\ Anthropic sample_oracle = Raise e2) /\
  parse_with_ai (H := ref_pylib) (JStr "fine") (JArr []) sample_oracle empty_world
  = (Raise (TypeError "unhashable type: 'list'"), empty_world) /\
  parse_with_ai (H := ref_pylib) (JStr "fine") (JArr []) sample_oracle empty_world
  <> (Raise (Exn "Exception" "No AI provider available"), empty_world) /\
  parse_voice (H := ref_pylib) ∅
    (parse_request (JObj [("text", JStr "fine"); ("mode", JArr [])]))
    sample_oracle empty_world
  = (Ok (Response 500 (JObj [("error", JStr "unhashable type: 'list'")])), empty_world).
Proof.
  split; [by eexists _, _|].
  assert (Hr : parse_with_ai (H := ref_pylib) (JStr "fine") (JArr []) sample_oracle empty_world
               = (Raise (TypeError "unhashable type: 'list'"), empty_world))
    by (vm_compute; reflexivity).
  split; [exact Hr|]. split; [|vm_compute; reflexivity].
  rewrite Hr. intros E. discriminate E.
Qed.

Lemma C6_witness :
  let rq := parse_request (JObj mood_body) in
  exists prompt,
    (authorized ∅ rq /\ json_or_empty rq = JObj mood_body /\
     truthy (default (JStr EmptyString) (dict_get mood_body "text")) = true /\
     hashable (default (JStr "alarm") (dict_get mood_body "mode")) = true /\
     (exists e1 e2, OpenAI sample_oracle = Raise e1 /\ Anthropic sample_oracle = Raise e2) /\
     get_ai_client failing_oracle = Some ("openai", failing_client) /\
     build_prompt (H := ref_pylib) (JStr "mood") (JStr "fine") = Ok prompt /\
     failing_client (openai_request prompt) = Raise rate_limited) /\
    parse_voice (H := ref_pylib) ∅ rq sample_oracle empty_world
    = (Ok (Response 500 (JObj [("error", JStr "No AI provider available")])), empty_world) /\
    parse_voice (H := ref_pylib) ∅ rq failing_oracle empty_world
    = (Ok (Response 500 (JObj [("error", JStr "rate limit exceeded")])),
       World ∅ [openai_request prompt]).
Proof.
  intros rq. eexists.
  assert (Ha : authorized ∅ rq) by reflexivity.
  assert (Hd : json_or_empty rq = JObj mood_body) by reflexivity.
  assert (Ht : truthy (default (JStr EmptyString) (dict_get mood_body "text")) = true)
    by reflexivity.
  assert (Hh : hashable (default (JStr "alarm") (dict_get mood_body "mode")) = true)
    by reflexivity.
  assert (Hn : exists e1 e2, OpenAI sample_oracle = Raise e1 /\ Anthropic sample_oracle = Raise e2)
    by (by eexists _, _).
  assert (Hc : get_ai_client failing_oracle = Some ("openai", failing_client)) by reflexivity.
  assert (Hp : build_prompt (H := ref_pylib) (JStr "mood") (JStr "fine") = Ok _)
    by (vm_compute; reflexivity).
  assert (Hf : forall p, failing_client (openai_request p) = Raise rate_limited)
    by reflexivity.
  split; [exact (conj Ha (conj Hd (conj Ht (conj Hh (conj Hn (conj Hc (conj Hp (Hf _))))))))|].
  split.
  - destruct (C6_parse_failures (H := ref_pylib) ∅ rq sample_oracle empty_world mood_body
                Ha Hd Ht) as (Hnone & _).
    exact (proj2 (Hnone Hh Hn)).
  - destruct (C6_parse_failures (H := ref_pylib) ∅ rq failing_oracle empty_world mood_body
                Ha Hd Ht) as (_ & _ & Hcall & _).
    exact (Hcall "openai" failing_client _ rate_limited Hc Hp (or_introl (Hf _))).
Defined.

(** The claim C7 as it was written fails on a body that is a list: it
    has no [text] field, and [data.get] raises outside the [try]. *)
Lemma C7_counterexample :
  let rq := parse_request (JArr [JInt 1]) in
  authorized ∅ rq /\
  py_contains "text" (req_json rq) = Ok false /\
  parse_voice (H := ref_pylib) ∅ rq sample_oracle empty_world
  = (Raise (AttributeError "list" "get"), empty_world) /\
  parse_voice (H := ref_pylib) ∅ rq sample_oracle empty_world
  <> (Ok (Response 400 (JObj [("error", JStr "No text provided")])), empty_world).
Proof.
  intros rq.
  assert (Hr : parse_voice (H := ref_pylib) ∅ rq sample_oracle empty_world
               = (Raise (AttributeError "list" "get"), empty_world))
    by (vm_compute; reflexivity).
  split; [reflexivity|]. split; [reflexivity|]. split; [exact Hr|].
  rewrite Hr. intros E. discriminate E.
Qed.

Lemma C7_witness :
  let rq := Request "POST" ["api"; "parse"] dev_key (JObj [("mode", JStr "mood")]) in
  (json_or_empty rq = JObj [("mode", JStr "mood")] /\
   dict_get [("mode", JStr "mood")] "text" = None /\
   authorized ∅ rq) /\
  parse_voice (H := ref_pylib) ∅ rq sample_oracle empty_world
  = (Ok (Response 400 (JObj [("error", JStr "No text provided")])), empty_world).
Proof.
  intros rq.
  assert (Hd : json_or_empty rq = JObj [("mode", JStr "mood")]) by reflexivity.
  assert (Ht : dict_get [("mode", JStr "mood")] "text" = None) by reflexivity.
  assert (Ha : authorized ∅ rq) by reflexivity.
  split; [by repeat split|].
  exact (proj1 (C7_no_text (H := ref_pylib) ∅ rq sample_oracle empty_world _ Hd (or_introl Ht)) Ha).
Defined.

Lemma C9_witness :
  let d := [("id", JStr "mine"); ("createdAt", JStr "yesterday"); ("label", JStr "x")] in
  let rq := Request "POST" ["api"; "alarms"] dev_key (JObj d) in
  (authorized ∅ rq /\ json_or_empty rq = JObj d /\
   collection (H := ref_pylib) false "alarms" sample_world (map JObj sample_items)) /\
  exists item w',
    create_item (H := ref_pylib) ∅ false "alarms" rq sample_oracle sample_world
    = (Ok (Response 201 (JObj item)), w') /\
    dict_get item "id" = Some (JStr "mine") /\
    dict_get item "createdAt" = Some (JStr "2024-01-02T03:04:05") /\
    dict_get item "label" = Some (JStr "x").
Proof.
  intros d rq.
  assert (Ha : authorized ∅ rq) by reflexivity.
  assert (Hd : json_or_empty rq = JObj d) by reflexivity.
  assert (Hc : collection (H := ref_pylib) false "alarms" sample_world (map JObj sample_items))
    by (vm_compute; reflexivity).
  split; [by repeat split|].
  destruct (C9_create_item_frame (H := ref_pylib) ∅ false "alarms" rq sample_oracle d _
              sample_world Ha Hd Hc) as (item & w' & Hr & _ & Hid & Hat & Hother).
  exists item, w'. split; [exact Hr|]. split; [exact Hid|]. split; [exact Hat|].
  by rewrite Hother.
Defined.

Lemma C10_witness :
  let rq := Request "GET" ["api"; "alarms"; "a3"] dev_key JNull in
  (collection (H := ref_pylib) false "alarms" sample_world (map JObj sample_items) /\
   authorized ∅ rq) /\
  get_item (H := ref_pylib) ∅ false "alarms" "a3" rq sample_world = (Ok not_found, sample_world) /\
  exists w1 kept,
    db_delete (H := ref_pylib) false "alarms" "a3" sample_world = (Ok tt, w1) /\
    collection (H := ref_pylib) false "alarms" w1 (map JObj kept) /\
    In [("label", JStr "no id")] kept.
Proof.
  intros rq.
  assert (Hc : collection (H := ref_pylib) false "alarms" sample_world (map JObj sample_items))
    by (vm_compute; reflexivity).
  assert (Ha : authorized ∅ rq) by reflexivity.
  split; [by split|].
  destruct (C10_items_without_id (H := ref_pylib) ∅ false "alarms" "a3" rq sample_items
              sample_world Hc Ha)
    as [(w1 & kept & Hd & Hk & _ & Hin) (r & Hg & H404 & _)].
  split.
  - rewrite Hg, H404; [reflexivity|]. repeat constructor.
  - exists w1, kept. split; [exact Hd|]. split; [exact Hk|].
    apply Hin; [|reflexivity]. right. by left.
Defined.

(** ** The further statements at sample inputs *)

Lemma other_collection_untouched_witness :
  let rq := Request "POST" ["api"; "moods"] dev_key (JObj [("mood", JStr "calm")]) in
  ("moods" <> "alarms" /\
   collection (H := ref_pylib) false "alarms" sample_world (map JObj sample_items)) /\
  collection (H := ref_pylib) false "alarms"
    (snd (create_item (H := ref_pylib) ∅ false "moods" rq sample_oracle sample_world))
    (map JObj sample_items).
Proof.
  intros rq.
  assert (Hne : "moods" <> "alarms") by discriminate.
  assert (Hc : collection (H := ref_pylib) false "alarms" sample_world (map JObj sample_items))
    by (vm_compute; reflexivity).
  split; [by split|].
  exact (proj1 (other_collection_untouched (H := ref_pylib) ∅ false "moods" "alarms" "a1"
                  rq sample_oracle sample_world _ Hne Hc)).
Defined.

Lemma list_after_create_witness :
  let rq := Request "POST" ["api"; "alarms"] dev_key (JObj [("label", JStr "x")]) in
  let rq' := Request "GET" ["api"; "alarms"] dev_key JNull in
  (authorized ∅ rq /\ authorized ∅ rq' /\
   json_or_empty rq = JObj [("label", JStr "x")] /\
   collection (H := ref_pylib) false "alarms" empty_world []) /\
  exists item w',
    create_item (H := ref_pylib) ∅ false "alarms" rq sample_oracle empty_world
    = (Ok (Response 201 item), w') /\
    list_items (H := ref_pylib) ∅ false "alarms" rq' w' = (Ok (Response 200 (JArr [item])), w').
Proof.
  intros rq rq'.
  assert (Ha : authorized ∅ rq) by reflexivity.
  assert (Ha' : authorized ∅ rq') by reflexivity.
  assert (Hd : json_or_empty rq = JObj [("label", JStr "x")]) by reflexivity.
  assert (Hc : collection (H := ref_pylib) false "alarms" empty_world [])
    by (vm_compute; reflexivity).
  split; [by repeat split|].
  exact (list_after_create (H := ref_pylib) ∅ false "alarms" rq rq' sample_oracle _ _
           empty_world Ha Ha' Hd Hc).
Defined.

Lemma create_then_delete_witness :
  let d := [("label", JStr "x")] in
  let rq := Request "POST" ["api"; "alarms"] dev_key (JObj d) in
  let item_id := str_uuid (uuid4 0) in
  let rq' := Request "DELETE" ["api"; "alarms"; item_id] dev_key JNull in
  (authorized ∅ rq /\ authorized ∅ rq' /\ json_or_empty rq = JObj d /\
   collection (H := ref_pylib) false "alarms" sample_world (map JObj sample_items) /\
   has_id item_id (stamped d sample_oracle) = true /\
   Forall (fun old => has_id item_id old = false) sample_items) /\
  exists w1 w2,
    snd (create_item (H := ref_pylib) ∅ false "alarms" rq sample_oracle sample_world) = w1 /\
    delete_item (H := ref_pylib) ∅ false "alarms" item_id rq' w1 = (Ok deleted_ack, w2) /\
    collection (H := ref_pylib) false "alarms" w2 (map JObj sample_items).
Proof.
  intros d rq item_id rq'.
  assert (Ha : authorized ∅ rq) by reflexivity.
  assert (Ha' : authorized ∅ rq') by reflexivity.
  assert (Hd : json_or_empty rq = JObj d) by reflexivity.
  assert (Hc : collection (H := ref_pylib) false "alarms" sample_world (map JObj sample_items))
    by (vm_compute; reflexivity).
  assert (Hi : has_id item_id (stamped d sample_oracle) = true) by reflexivity.
  assert (Hf : Forall (fun old => has_id item_id old = false) sample_items)
    by (repeat constructor).
  split; [by repeat split|].
  destruct (create_then_delete (H := ref_pylib) ∅ false "alarms" rq rq' sample_oracle d
              sample_items item_id sample_world Ha Ha' Hd Hc Hi Hf)
    as (w1 & w2 & H1 & H2 & H3 & _).
  exists w1, w2. split; [exact H1|]. split; [exact H2|exact H3].
Defined.

Lemma delete_then_get_witness :
  let rq := Request "DELETE" ["api"; "alarms"; "a1"] dev_key JNull in
  let rq' := Request "GET" ["api"; "alarms"; "a1"] dev_key JNull in
  (authorized ∅ rq /\ authorized ∅ rq' /\
   collection (H := ref_pylib) false "alarms" sample_world (map JObj sample_items)) /\
  exists w1,
    delete_item (H := ref_pylib) ∅ false "alarms" "a1" rq sample_world = (Ok deleted_ack, w1) /\
    get_item (H := ref_pylib) ∅ false "alarms" "a1" rq' w1 = (Ok not_found, w1).
Proof.
  intros rq rq'.
  assert (Ha : authorized ∅ rq) by reflexivity.
  assert (Ha' : authorized ∅ rq') by reflexivity.
  assert (Hc : collection (H := ref_pylib) false "alarms" sample_world (map JObj sample_items))
    by (vm_compute; reflexivity).
  split; [by repeat split|].
  destruct (delete_then_get (H := ref_pylib) ∅ false "alarms" "a1" rq rq' sample_items
              sample_world Ha Ha' Hc) as (w1 & kept & H1 & _ & _ & H4).
  by exists w1.
Defined.

Lemma duplicate_id_shadowed_witness :
  let d := [("id", JStr "a2"); ("label", JStr "second nap")] in
  let old := [("id", JStr "a2"); ("label", JStr "nap")] in
  let rq := Request "POST" ["api"; "alarms"] dev_key (JObj d) in
  let rq' := Request "GET" ["api"; "alarms"; "a2"] dev_key JNull in
  (authorized ∅ rq /\ authorized ∅ rq' /\ json_or_empty rq = JObj d /\
   dict_get d "id" = Some (JStr "a2") /\
   collection (H := ref_pylib) false "alarms" sample_world (map JObj sample_items) /\
   List.find (has_id "a2") sample_items = Some old) /\
  exists item w',
    create_item (H := ref_pylib) ∅ false "alarms" rq sample_oracle sample_world
    = (Ok (Response 201 (JObj item)), w') /\
    get_item (H := ref_pylib) ∅ false "alarms" "a2" rq' w' = (Ok (Response 200 (JObj old)), w').
Proof.
  intros d old rq rq'.
  assert (Ha : authorized ∅ rq) by reflexivity.
  assert (Ha' : authorized ∅ rq') by reflexivity.
  assert (Hd : json_or_empty rq = JObj d) by reflexivity.
  assert (Hid : dict_get d "id" = Some (JStr "a2")) by reflexivity.
  assert (Hc : collection (H := ref_pylib) false "alarms" sample_world (map JObj sample_items))
    by (vm_compute; reflexivity).
  assert (Hold : List.find (has_id "a2") sample_items = Some old) by reflexivity.
  split; [by repeat split|].
  destruct (duplicate_id_shadowed (H := ref_pylib) ∅ false "alarms" rq rq' sample_oracle d old
              sample_items "a2" sample_world Ha Ha' Hd Hid Hc Hold)
    as (item & w' & H1 & _ & _ & H4).
  by exists item, w'.
Defined.

Lemma malformed_blob_propagates_witness :
  let rq := Request "GET" ["api"; "moods"] dev_key JNull in
  let e := Exn "JSONDecodeError" "Expecting value" in
  (authorized ∅ rq /\
   db_items (H := ref_pylib) false "moods" broken_world = (Raise e, broken_world)) /\
  list_items (H := ref_pylib) ∅ false "moods" rq broken_world = (Raise e, broken_world) /\
  delete_item (H := ref_pylib) ∅ false "moods" "m1" rq broken_world = (Raise e, broken_world).
Proof.
  intros rq e.
  assert (Ha : authorized ∅ rq) by reflexivity.
  assert (Hb : db_items (H := ref_pylib) false "moods" broken_world = (Raise e, broken_world))
    by (vm_compute; reflexivity).
  split; [by split|].
  destruct (malformed_blob_propagates (H := ref_pylib) ∅ false "moods" "m1" rq sample_oracle
              [] e broken_world Ha Hb) as (H1 & _ & H3 & _).
  by split.
Defined.

Lemma non_object_body_raises_witness :
  let rq := parse_request (JStr "wake me at seven") in
  (authorized ∅ rq /\ truthy (req_json rq) = true /\ (forall d, req_json rq <> JObj d)) /\
  parse_voice (H := ref_pylib) ∅ rq sample_oracle empty_world
  = (Raise (AttributeError "str" "get"), empty_world).
Proof.
  intros rq.
  assert (Ha : authorized ∅ rq) by reflexivity.
  assert (Ht : truthy (req_json rq) = true) by reflexivity.
  assert (Hn : forall d, req_json rq <> JObj d) by discriminate.
  split; [by repeat split|].
  exact (proj2 (non_object_body_raises (H := ref_pylib) ∅ false "alarms" rq sample_oracle
                  empty_world Ha Ht Hn)).
Defined.

Lemma openai_is_preferred_witness :
  let rq := parse_request (JObj mood_body) in
  exists prompt,
    (authorized ∅ rq /\ json_or_empty rq = JObj mood_body /\
     truthy (default (JStr EmptyString) (dict_get mood_body "text")) = true /\
     build_prompt (H := ref_pylib) (JStr "mood") (JStr "fine") = Ok prompt /\
     OpenAI both_oracle = Ok (echo_client (ref_dumps mood_reply))) /\
    parse_voice (H := ref_pylib) ∅ rq both_oracle empty_world
    = (Ok (Response 200 mood_reply), World ∅ [openai_request prompt]).
Proof.
  intros rq. eexists.
  assert (Ha : authorized ∅ rq) by reflexivity.
  assert (Hd : json_or_empty rq = JObj mood_body) by reflexivity.
  assert (Ht : truthy (default (JStr EmptyString) (dict_get mood_body "text")) = true)
    by reflexivity.
  assert (Hp : build_prompt (H := ref_pylib) (JStr "mood") (JStr "fine") = Ok _)
    by (vm_compute; reflexivity).
  assert (Ho : OpenAI both_oracle = Ok (echo_client (ref_dumps mood_reply))) by reflexivity.
  split; [by repeat split|].
  rewrite (openai_is_preferred (H := ref_pylib) ∅ rq both_oracle empty_world mood_body
             _ _ Ha Hd Ht Hp Ho).
  vm_compute. reflexivity.
Defined.

Lemma anthropic_is_fallback_witness :
  let rq := parse_request (JObj mood_body) in
  exists prompt,
    (authorized ∅ rq /\ json_or_empty rq = JObj mood_body /\
     truthy (default (JStr EmptyString) (dict_get mood_body "text")) = true /\
     build_prompt (H := ref_pylib) (JStr "mood") (JStr "fine") = Ok prompt /\
     OpenAI second_oracle = Raise (no_module "openai") /\
     Anthropic second_oracle = Ok (echo_client (ref_dumps mood_reply))) /\
    parse_voice (H := ref_pylib) ∅ rq second_oracle empty_world
    = (Ok (Response 200 mood_reply), World ∅ [anthropic_request prompt]).
Proof.
  intros rq. eexists.
  assert (Ha : authorized ∅ rq) by reflexivity.
  assert (Hd : json_or_empty rq = JObj mood_body) by reflexivity.
  assert (Ht : truthy (default (JStr EmptyString) (dict_get mood_body "text")) = true)
    by reflexivity.
  assert (Hp : build_prompt (H := ref_pylib) (JStr "mood") (JStr "fine") = Ok _)
    by (vm_compute; reflexivity).
  assert (H0 : OpenAI second_oracle = Raise (no_module "openai")) by reflexivity.
  assert (Hc : Anthropic second_oracle = Ok (echo_client (ref_dumps mood_reply)))
    by reflexivity.
  split; [by repeat split|].
  rewrite (anthropic_is_fallback (H := ref_pylib) ∅ rq second_oracle empty_world mood_body
             _ _ _ Ha Hd Ht Hp H0 Hc).
  vm_compute. reflexivity.
Defined.

Lemma parse_returns_provider_json_witness :
  let rq := parse_request (JObj mood_body) in
  let c := echo_client (json_dumps (PyLib := ref_pylib) mood_reply) in
  (authorized ∅ rq /\ json_or_empty rq = JObj mood_body /\
   truthy (default (JStr EmptyString) (dict_get mood_body "text")) = true /\
   hashable (default (JStr "alarm") (dict_get mood_body "mode")) = true /\
   get_ai_client second_oracle = Some ("anthropic", c) /\
   (forall call, c call = Ok (json_dumps (PyLib := ref_pylib) mood_reply))) /\
  exists call,
    parse_voice (H := ref_pylib) ∅ rq second_oracle empty_world
    = (Ok (Response 200 mood_reply), World ∅ [call]).
Proof.
  intros rq c.
  assert (Ha : authorized ∅ rq) by reflexivity.
  assert (Hd : json_or_empty rq = JObj mood_body) by reflexivity.
  assert (Ht : truthy (default (JStr EmptyString) (dict_get mood_body "text")) = true)
    by reflexivity.
  assert (Hh : hashable (default (JStr "alarm") (dict_get mood_body "mode")) = true)
    by reflexivity.
  assert (Hc : get_ai_client second_oracle = Some ("anthropic", c)) by reflexivity.
  assert (Hr : forall call, c call = Ok (json_dumps (PyLib := ref_pylib) mood_reply))
    by reflexivity.
  split; [by repeat split|].
  exact (parse_returns_provider_json (H := ref_pylib) ∅ rq second_oracle empty_world
           mood_body "anthropic" c mood_reply Ha Hd Ht Hh Hc Hr).
Defined.

Lemma modes_have_own_prompt_witness :
  (In "mood" modes /\ In "inbox" modes) /\
  build_prompt (H := ref_pylib) (JStr "mood") (JStr "fine")
  <> build_prompt (H := ref_pylib) (JStr "inbox") (JStr "fine").
Proof.
  assert (H1 : In "mood" modes) by (cbn; tauto).
  assert (H2 : In "inbox" modes) by (cbn; tauto).
  split; [by split|].
  intros E.
  pose proof (modes_have_own_prompt (H := ref_pylib) "mood" "inbox" (JStr "fine") H1 H2 E)
    as Hm.
  discriminate Hm.
Defined.

Lemma mode_not_a_string_witness :
  let d := [("text", JStr "fine"); ("mode", JArr [JStr "mood"])] in
  let rq := parse_request (JObj d) in
  (authorized ∅ rq /\ json_or_empty rq = JObj d /\
   truthy (default (JStr EmptyString) (dict_get d "text")) = true /\
   (forall m, default (JStr "alarm") (dict_get d "mode") <> JStr m) /\
   hashable (default (JStr "alarm") (dict_get d "mode")) = false) /\
  parse_voice (H := ref_pylib) ∅ rq both_oracle empty_world
  = (Ok (Response 500 (JObj [("error", JStr "unhashable type: 'list'")])), empty_world).
Proof.
  intros d rq.
  assert (Ha : authorized ∅ rq) by reflexivity.
  assert (Hd : json_or_empty rq = JObj d) by reflexivity.
  assert (Ht : truthy (default (JStr EmptyString) (dict_get d "text")) = true) by reflexivity.
  assert (Hs : forall m, default (JStr "alarm") (dict_get d "mode") <> JStr m) by discriminate.
  assert (Hh : hashable (default (JStr "alarm") (dict_get d "mode")) = false) by reflexivity.
  split; [by repeat split|].
  exact (proj2 (mode_not_a_string (H := ref_pylib) ∅ rq both_oracle empty_world d
                  Ha Hd Ht Hs) Hh).
Defined.

Lemma get_is_read_only_witness :
  let rq := Request "GET" ["api"; "alarms"; "a1"] [] JNull in
  exists m,
    (req_method rq = "GET" /\
     dispatch (H := ref_pylib) ∅ false rq sample_oracle = Some m) /\
    snd (m sample_world) = sample_world.
Proof.
  intros rq. eexists.
  assert (Hg : req_method rq = "GET") by reflexivity.
  assert (Hd : dispatch (H := ref_pylib) ∅ false rq sample_oracle = Some _) by reflexivity.
  split; [by split|].
  exact (get_is_read_only (H := ref_pylib) ∅ false rq sample_oracle _ sample_world Hg Hd).
Defined.

Lemma only_registered_routes_witness :
  let rq := Request "PUT" ["api"; "alarms"; "a1"] dev_key (JObj [("label", JStr "y")]) in
  ~ In (req_method rq) ["GET"; "HEAD"; "POST"; "DELETE"] /\
  dispatch (H := ref_pylib) ∅ false rq sample_oracle = None.
Proof.
  intros rq.
  assert (Hn : ~ In (req_method rq) ["GET"; "HEAD"; "POST"; "DELETE"])
    by (cbn; intuition discriminate).
  split; [exact Hn|].
  exact (proj1 (only_registered_routes (H := ref_pylib) ∅ false rq sample_oracle) Hn).
Defined.

Lemma crud_routes_witness :
  let rq := Request "DELETE" ["api"; "profiles"; "p1"] dev_key JNull in
  (In "profiles" crud_prefixes /\ "p1" <> EmptyString) /\
  dispatch (H := ref_pylib) ∅ false rq sample_oracle
  = Some (delete_item (H := ref_pylib) ∅ false "profiles" "p1" rq).
Proof.
  intros rq.
  assert (Hp : In "profiles" crud_prefixes) by (cbn; tauto).
  assert (Hi : "p1" <> EmptyString) by discriminate.
  split; [by split|].
  destruct (crud_routes (H := ref_pylib) ∅ false "profiles" "p1" dev_key JNull sample_oracle
              Hp Hi) as (_ & _ & _ & Hdel).
  exact Hdel.
Defined.

Lemma missing_header_and_empty_key_witness :
  let env : gmap string string := {[ "HABITCARDS_API_KEY" := EmptyString ]} in
  let rq := Request "DELETE" ["api"; "alarms"; "a1"] [("Accept", "*/*")] JNull in
  (lacks_header "X-API-KEY" rq /\ API_KEY env = EmptyString) /\
  check_auth env rq = None.
Proof.
  intros env rq.
  assert (Hl : lacks_header "X-API-KEY" rq) by (repeat constructor; discriminate).
  assert (Hk : API_KEY env = EmptyString) by reflexivity.
  split; [by split|].
  exact (proj1 (missing_header_and_empty_key env rq Hl) Hk).
Defined.

Lemma wrong_key_sees_only_index_witness :
  let rq := Request "GET" [] [("X-API-KEY", "guess")] JNull in
  exists m,
    (~ authorized ∅ rq /\ dispatch (H := ref_pylib) ∅ true rq sample_oracle = Some m /\
     req_path rq = []) /\
    m sample_world = (Ok (Response 200 (index_body true)), sample_world).
Proof.
  intros rq. eexists.
  assert (Hn : ~ authorized ∅ rq) by (vm_compute; discriminate).
  assert (Hd : dispatch (H := ref_pylib) ∅ true rq sample_oracle = Some _) by reflexivity.
  assert (Hp : req_path rq = []) by reflexivity.
  split; [by repeat split|].
  exact (proj1 (wrong_key_sees_only_index (H := ref_pylib) ∅ true rq sample_oracle _
                  sample_world Hn Hd) Hp).
Defined.

Lemma non_string_id_unreachable_witness :
  let d := [("id", JInt 5); ("label", JStr "five")] in
  let rq := Request "POST" ["api"; "alarms"] dev_key (JObj d) in
  let rq' := Request "DELETE" ["api"; "alarms"; "5"] dev_key JNull in
  (authorized ∅ rq /\ authorized ∅ rq' /\ json_or_empty rq = JObj d /\
   dict_get d "id" = Some (JInt 5) /\ (forall s, JInt 5 <> JStr s) /\
   collection (H := ref_pylib) false "alarms" empty_world (map JObj [])) /\
  exists item w' w2,
    create_item (H := ref_pylib) ∅ false "alarms" rq sample_oracle empty_world
    = (Ok (Response 201 (JObj item)), w') /\
    delete_item (H := ref_pylib) ∅ false "alarms" "5" rq' w' = (Ok deleted_ack, w2) /\
    collection (H := ref_pylib) false "alarms" w2 [JObj item].
Proof.
  intros d rq rq'.
  assert (Ha : authorized ∅ rq) by reflexivity.
  assert (Ha' : authorized ∅ rq') by reflexivity.
  assert (Hd : json_or_empty rq = JObj d) by reflexivity.
  assert (Hv : dict_get d "id" = Some (JInt 5)) by reflexivity.
  assert (Hs : forall s, JInt 5 <> JStr s) by discriminate.
  assert (Hc : collection (H := ref_pylib) false "alarms" empty_world (map JObj []))
    by (vm_compute; reflexivity).
  split; [by repeat split|].
  destruct (non_string_id_unreachable (H := ref_pylib) ∅ false "alarms" rq rq' sample_oracle
              d (JInt 5) [] "5" empty_world Ha Ha' Hd Hv Hs Hc)
    as (item & w' & w2 & H1 & _ & _ & H4 & H5).
  exists item, w', w2. split; [exact H1|]. split; [exact H4|exact H5].
Defined.

Lemma one_provider_call_per_request_witness :
  let rq := parse_request (JObj mood_body) in
  exists m,
    dispatch (H := ref_pylib) ∅ false rq both_oracle = Some m /\
    exists calls,
      ai_log (snd (m empty_world)) = (ai_log empty_world ++ calls)%list /\
      (length calls <= 1)%nat.
Proof.
  intros rq. eexists.
  assert (Hd : dispatch (H := ref_pylib) ∅ false rq both_oracle = Some _) by reflexivity.
  split; [exact Hd|].
  exact (proj1 (one_provider_call_per_request (H := ref_pylib) ∅ false rq both_oracle _
                  empty_world Hd)).
Defined.
